(** * Voltcraft SEM 6000: frame codec, payload decoder, notification
      reassembler and transaction engine

    Shallow embedding of [sem6000/parser.py] and [sem6000/sem6000.py].
    Python [bytes] are lists of [Byte.byte]; Python integers are [Z];
    lengths and indices are [nat]; every exception is a value of [exn]
    carried by [result]. *)

From Stdlib Require Import String.
From Stdlib Require Import List ZArith Lia Bool Arith.
From Stdlib Require Import Strings.Byte.
From Stdlib Require Import Sorted.
Import ListNotations.

Set Implicit Arguments.

(** ** Python bytes *)

Definition bytes := list byte.

Definition byte_val (b : byte) : Z := Z.of_N (Byte.to_N b).

Fixpoint bytes_eqb (a b : bytes) : bool :=
  match a, b with
  | [], [] => true
  | x :: a', y :: b' => Byte.eqb x y && bytes_eqb a' b'
  | _, _ => false
  end.

(** [l[a:b]] for non-negative [a] and [b]. *)
Definition slice (A : Type) (a b : nat) (l : list A) : list A :=
  firstn (b - a) (skipn a l).

(** [l[-k:]]. *)
Definition slice_last (A : Type) (k : nat) (l : list A) : list A :=
  skipn (length l - k) l.

(** [l[a:-k]]. *)
Definition slice_but_last (A : Type) (a k : nat) (l : list A) : list A :=
  firstn (length l - k - a) (skipn a l).

(** [sum(l)] over byte values. *)
Definition sum_bytes (l : bytes) : Z :=
  fold_left (fun acc b => acc + byte_val b)%Z l 0%Z.

(** [int.from_bytes(l, 'big')]. *)
Definition from_bytes_big (l : bytes) : Z :=
  fold_left (fun acc b => acc * 256 + byte_val b)%Z l 0%Z.

(** ** Exceptions and results *)

Inductive message_class : Type :=
  | AuthenticationNotification_class
  | ChangePinNotification_class
  | ResetPinNotification_class
  | PowerSwitchNotification_class
  | LEDSwitchNotification_class
  | SynchronizeDateAndTimeNotification_class
  | RequestedSettingsNotification_class
  | PricesSetNotification_class
  | ReducedPeriodSetNotification_class
  | RequestedTimerStatusNotification_class
  | TimerSetNotification_class
  | SchedulerRequestedNotification_class.

Inductive exn : Type :=
  | InvalidResponse
  | IndexError
  | InvalidChecksum (actual received : Z)
  | InvalidSuffix (suffix : bytes)
  | InvalidPayloadLengthException
      (cls : message_class) (expected_payload_length actual_payload_length : nat)
  | UnicodeDecodeError
  | UnsupportedMessage
  | IncompleteNotificationData
  | NotConnected
  | BTLEException
  | AuthenticationFailed
  | RequestSchedulerFirstPageFailed
  | RequestSchedulerSecondPageFailed
  | PowerOnFailed
  | EditSchedulerFailed
  | NameError (name : string)
  | ValueError
  | TypeError
  | EncodeError
  | RecursionError.

Inductive result (A : Type) : Type :=
  | Ok (a : A)
  | Raise (e : exn).

Arguments Ok {A} a.
Arguments Raise {A} e.

Definition is_ok (A : Type) (r : result A) : bool :=
  match r with Ok _ => true | Raise _ => false end.

(** ** Frame codec: [MessageParser._parse_payload] *)

Definition frame_checksum (payload : bytes) : Z :=
  Z.land (1 + sum_bytes payload) 255.

Definition _parse_payload (data : bytes) : result bytes :=
  if negb (bytes_eqb (slice 0 1 data) [x0f]) then Raise InvalidResponse
  else
    match nth_error data 1 with
    | None => Raise IndexError
    | Some lb =>
        let length_of_payload := Z.to_nat (byte_val lb) in
        let payload := slice 2 (2 + length_of_payload - 1) data in
        match nth_error data (2 + length_of_payload - 1) with
        | None => Raise IndexError
        | Some cb =>
            let checksum_received := byte_val cb in
            let checksum := frame_checksum payload in
            if negb (checksum_received =? checksum)%Z
            then Raise (InvalidChecksum checksum checksum_received)
            else if (2 + length_of_payload <? length data)%nat then
              let suffix := skipn (2 + length_of_payload) data in
              if negb (bytes_eqb suffix [xff; xff])
              then Raise (InvalidSuffix suffix)
              else Ok payload
            else Ok payload
        end
    end.

(** ** Data model ([message.py] declares these classes; the parser and the
       engine construct and inspect them with the fields below) *)

Record Scheduler : Type := mkScheduler {
  sch_is_active : bool;
  sch_is_action_turn_on : bool;
  sch_repeat_on_weekdays : list nat;
  sch_year : Z;
  sch_month : Z;
  sch_day : Z;
  sch_hour : Z;
  sch_minute : Z
}.

Record SchedulerEntry : Type := mkSchedulerEntry {
  slot_id : Z;
  scheduler : Scheduler
}.

Inductive notification : Type :=
  | AuthorizationNotification (was_successful : bool)
  | ChangePinNotification (was_successful : bool)
  | ResetPinNotification (was_successful : bool)
  | PowerSwitchNotification (was_successful : bool)
  | LEDSwitchNotification (was_successful : bool)
  | SynchronizeDateAndTimeNotification (was_successful : bool)
  | RequestedSettingsNotification
      (is_reduced_period : bool)
      (normal_price_in_cent reduced_period_price_in_cent : Z)
      (reduced_period_start_time_in_minutes reduced_period_end_time_in_minutes : Z)
      (is_led_active : bool) (power_limit_in_watt : Z)
  | PowerLimitSetNotification (was_successful : bool)
  | PricesSetNotification (was_successful : bool)
  | ReducedPeriodSetNotification (was_successful : bool)
  | RequestedTimerStatusNotification
      (is_timer_running is_action_turn_on : bool)
      (target_year target_month target_day : Z)
      (target_hour target_minute target_second : Z)
      (original_timer_length_in_seconds : Z)
  | TimerSetNotification (was_successful : bool)
  | SchedulerRequestedNotification
      (number_of_schedulers : Z) (scheduler_entries : list SchedulerEntry)
  | SchedulerSetNotification (was_successful : bool)
  | RandomModeStatusRequestedNotification
      (is_active : bool) (active_on_weekdays : list nat)
      (start_hour start_minute end_hour end_minute : Z)
  | RandomModeSetNotification (was_successful : bool)
  | MeasurementRequestedNotification
      (is_power_active : bool)
      (power_in_milliwatt voltage_in_volt current_in_milliampere : Z)
      (frequency_in_hertz total_consumption_in_kilowatt_hour : Z)
  | ConsumptionOfLast12MonthsRequestedNotification
      (consumption_n_months_ago_in_watt_hour : list (option Z))
  | ConsumptionOfLast30DaysRequestedNotification
      (consumption_n_days_ago_in_watt_hour : list (option Z))
  | ConsumptionOfLast23HoursRequestedNotification
      (consumption_n_hours_ago_in_watt_hour : list (option Z))
  | ResetConsumptionNotification (was_successful : bool)
  | FactoryResetNotification (was_successful : bool)
  | DeviceNameSetNotification (was_successful : bool)
  | DeviceSerialRequestedNotification (serial : string).

(** The commands built by the engine methods embedded below. *)
Inductive command : Type :=
  | AuthorizeCommand (pin : string)
  | PowerSwitchCommand (on : bool)
  | RequestSchedulerCommand (page_number : Z)
  | EditSchedulerCommand (slot : Z) (sch : Scheduler).

(** What is written to [sys.stderr]. *)
Inductive stderr_line : Type :=
  | InvalidSchedulerChecksumLine (slot actual received : Z)
  | SentDataLine (encoded : bytes) (c : command)
  | ReceivedDataLine (data : bytes) (n : option notification).

(** ** Collaborators outside [parser.py] and [sem6000.py]

    The wall clock, the UTF-8 codec, the message encoder of [encoder.py]
    and the helpers of [util.py] and [datetime] are taken as given. *)

Record datetime : Type := mkDatetime {
  dt_year : Z; dt_month : Z; dt_day : Z; dt_hour : Z; dt_minute : Z
}.

Class Externals : Type := {
  (** [datetime.datetime.now().year] *)
  now_year : Z;
  (** [bytes.decode('utf-8')]; [None] is [UnicodeDecodeError] *)
  utf8_decode : bytes -> option string;
  (** [MessageEncoder.encode] *)
  encode : command -> result bytes;
  (** untyped values handed in by a caller *)
  PyVal : Type;
  (** [datetime.datetime.fromisoformat] *)
  fromisoformat : PyVal -> result datetime;
  (** [datetime.datetime(year=..., month=..., day=..., hour=..., minute=...)] *)
  datetime_new : Z -> Z -> Z -> Z -> Z -> result datetime;
  (** [int(...)] *)
  py_int : PyVal -> result Z;
  (** [util._parse_boolean] *)
  _parse_boolean : PyVal -> result bool
}.

(** ** Payload decoder: [MessageParser] *)

Section Parser.
Context {ext : Externals}.

(** [for w in range(7): if mask & 2**w: weekdays.append(w)] *)
Definition weekdays_of_mask (mask : Z) : list nat :=
  fold_left
    (fun acc w =>
       if negb (Z.land mask (2 ^ Z.of_nat w) =? 0)%Z then acc ++ [w] else acc)
    (seq 0 7) [].

Definition _parse_scheduler (data : bytes) : Scheduler :=
  let year_diff := (now_year - now_year mod 100)%Z in
  let is_active := bytes_eqb (slice 0 1 data) [x01] in
  let is_action_turn_on := bytes_eqb (slice 1 2 data) [x01] in
  let repeat_on_weekdays_mask := from_bytes_big (slice 2 3 data) in
  let repeat_on_weekdays := weekdays_of_mask repeat_on_weekdays_mask in
  let year := (from_bytes_big (slice 3 4 data) + year_diff)%Z in
  let month := from_bytes_big (slice 4 5 data) in
  let day := from_bytes_big (slice 5 6 data) in
  let hour := from_bytes_big (slice 6 7 data) in
  let minute := from_bytes_big (slice 7 8 data) in
  mkScheduler is_active is_action_turn_on repeat_on_weekdays
              year month day hour minute.

(** [payload[i]] *)
Definition index (payload : bytes) (i : nat) : result Z :=
  match nth_error payload i with
  | Some b => Ok (byte_val b)
  | None => Raise IndexError
  end.

Definition bind_result (A B : Type) (r : result A) (k : A -> result B)
  : result B :=
  match r with
  | Ok a => k a
  | Raise e => Raise e
  end.

(** The flag pattern [x = False; if payload[i:j] == b: x = True]. *)
Definition flag (payload : bytes) (i : nat) (b : byte) : bool :=
  bytes_eqb (slice i (i + 1) payload) [b].

(** One iteration of the loop over the entries of a scheduler page. *)
Definition scheduler_page_step (payload : bytes)
    (st : list SchedulerEntry * list stderr_line) (i : nat)
  : list SchedulerEntry * list stderr_line :=
  let '(scheduler_entries, err) := st in
  let slot_id := from_bytes_big (slice (3 + i * 12) (4 + i * 12) payload) in
  let checksum_received :=
    from_bytes_big (slice (14 + i * 12) (15 + i * 12) payload) in
  let checksum :=
    Z.land (sum_bytes (slice (4 + i * 12) (14 + i * 12) payload) + 20) 255 in
  let err' :=
    if negb (checksum_received =? checksum)%Z
    then err ++ [InvalidSchedulerChecksumLine slot_id checksum checksum_received]
    else err in
  let scheduler := _parse_scheduler (slice (4 + i * 12) (12 + i * 12) payload) in
  (scheduler_entries ++ [mkSchedulerEntry slot_id scheduler], err').

Definition parse_scheduler_page (payload : bytes)
  : list stderr_line * result notification :=
  if (length payload <? 3)%nat then
    ([], Raise (InvalidPayloadLengthException
                  SchedulerRequestedNotification_class 3 (length payload)))
  else if negb (((length payload - 3) mod 12 =? 0)%nat) then
    let expected := (length payload + 12 - (length payload - 3) mod 12)%nat in
    ([], Raise (InvalidPayloadLengthException
                  SchedulerRequestedNotification_class expected (length payload)))
  else
    let number_of_schedulers := from_bytes_big (slice 2 3 payload) in
    let number_of_schedulers_in_message := ((length payload - 3) / 12)%nat in
    let '(scheduler_entries, err) :=
      fold_left (scheduler_page_step payload)
                (seq 0 number_of_schedulers_in_message) ([], []) in
    (err, Ok (SchedulerRequestedNotification number_of_schedulers scheduler_entries)).

(** [for i in range((len(payload)-2) // width):
       consumptions.insert(0, int.from_bytes(payload[2+width*i : 2+width*i+taken], 'big'))] *)
Definition consumption_loop (width taken : nat) (payload : bytes)
  : list (option Z) :=
  fold_left
    (fun consumptions i =>
       Some (from_bytes_big
               (slice (2 + width * i) (2 + width * i + taken) payload))
       :: consumptions)
    (seq 0 ((length payload - 2) / width)) [].

Definition prefix2 (payload : bytes) (a b : byte) : bool :=
  bytes_eqb (slice 0 2 payload) [a; b].

Definition prefix3 (payload : bytes) (a b c : byte) : bool :=
  bytes_eqb (slice 0 3 payload) [a; b; c].

Definition no_stderr (r : result notification)
  : list stderr_line * result notification := ([], r).

(** A branch that first requires [len(payload) == expected]. *)
Definition with_length (cls : message_class) (expected : nat)
    (payload : bytes) (r : result notification) : result notification :=
  if negb (length payload =? expected)%nat
  then Raise (InvalidPayloadLengthException cls expected (length payload))
  else r.

Definition parse_settings (payload : bytes) : notification :=
  RequestedSettingsNotification
    (flag payload 2 x01)
    (from_bytes_big (slice 3 4 payload))
    (from_bytes_big (slice 4 5 payload))
    (from_bytes_big (slice 5 7 payload))
    (from_bytes_big (slice 7 9 payload))
    (flag payload 9 x01)
    (from_bytes_big (slice 11 13 payload)).

Definition parse_timer_status (payload : bytes) : result notification :=
  let is_action_turn_on := flag payload 2 x01 in
  let is_timer_running := negb (flag payload 2 x00) in
  bind_result (index payload 3) (fun target_second =>
  bind_result (index payload 4) (fun target_minute =>
  bind_result (index payload 5) (fun target_hour =>
  bind_result (index payload 6) (fun target_day =>
  bind_result (index payload 7) (fun target_month =>
  bind_result (index payload 8) (fun target_year =>
  let original_timer_length_in_seconds :=
    from_bytes_big (slice 9 12 payload) in
  Ok (RequestedTimerStatusNotification
        is_timer_running is_action_turn_on
        target_year target_month target_day
        target_hour target_minute target_second
        original_timer_length_in_seconds))))))).

Definition parse_random_mode_status (payload : bytes) : notification :=
  RandomModeStatusRequestedNotification
    (flag payload 2 x01)
    (weekdays_of_mask (from_bytes_big (slice 3 4 payload)))
    (from_bytes_big (slice 4 5 payload))
    (from_bytes_big (slice 5 6 payload))
    (from_bytes_big (slice 6 7 payload))
    (from_bytes_big (slice 7 8 payload)).

Definition parse_measurement (payload : bytes) : notification :=
  MeasurementRequestedNotification
    (flag payload 2 x01)
    (from_bytes_big (slice 3 6 payload))
    (from_bytes_big (slice 6 7 payload))
    (from_bytes_big (slice 7 9 payload))
    (from_bytes_big (slice 9 10 payload))
    (from_bytes_big (slice 12 16 payload)).

Definition parse_serial (payload : bytes) : result notification :=
  match utf8_decode (slice_but_last 2 2 payload) with
  | Some serial => Ok (DeviceSerialRequestedNotification serial)
  | None => Raise UnicodeDecodeError
  end.

(** The chain of prefix tests of [MessageParser.parse], in source order,
    applied to the payload that [_parse_payload] returned. *)
Definition parse_notification (payload : bytes)
  : list stderr_line * result notification :=
  if prefix2 payload x17 x00 && flag payload 3 x00 then
    no_stderr (with_length AuthenticationNotification_class 5 payload
                 (Ok (AuthorizationNotification (flag payload 2 x00))))
  else if prefix2 payload x17 x00 && flag payload 3 x01 then
    no_stderr (with_length ChangePinNotification_class 5 payload
                 (Ok (ChangePinNotification (flag payload 2 x00))))
  else if prefix2 payload x17 x00 && flag payload 3 x02 then
    no_stderr (with_length ResetPinNotification_class 5 payload
                 (Ok (ResetPinNotification (flag payload 2 x00))))
  else if prefix2 payload x03 x00 then
    no_stderr (with_length PowerSwitchNotification_class 3 payload
                 (Ok (PowerSwitchNotification (flag payload 2 x00))))
  else if prefix3 payload x0f x00 x05 then
    no_stderr (with_length LEDSwitchNotification_class 4 payload
                 (Ok (LEDSwitchNotification true)))
  else if prefix2 payload x01 x00 then
    no_stderr (with_length SynchronizeDateAndTimeNotification_class 3 payload
                 (Ok (SynchronizeDateAndTimeNotification (flag payload 2 x00))))
  else if prefix2 payload x10 x00 then
    no_stderr (with_length RequestedSettingsNotification_class 13 payload
                 (Ok (parse_settings payload)))
  else if prefix3 payload x05 x00 x00 && (length payload =? 3)%nat then
    no_stderr (Ok (PowerLimitSetNotification true))
  else if prefix3 payload x0f x00 x04 then
    no_stderr (with_length PricesSetNotification_class 4 payload
                 (Ok (PricesSetNotification true)))
  else if prefix3 payload x0f x00 x01 then
    no_stderr (with_length ReducedPeriodSetNotification_class 4 payload
                 (Ok (ReducedPeriodSetNotification true)))
  else if prefix2 payload x09 x00 then
    no_stderr (with_length RequestedTimerStatusNotification_class 13 payload
                 (parse_timer_status payload))
  else if prefix2 payload x08 x00 then
    no_stderr (with_length TimerSetNotification_class 3 payload
                 (Ok (TimerSetNotification true)))
  else if prefix2 payload x14 x00 then
    parse_scheduler_page payload
  else if prefix2 payload x13 x00 then
    no_stderr (Ok (SchedulerSetNotification (flag payload 2 x00)))
  else if prefix2 payload x16 x00 then
    no_stderr (Ok (parse_random_mode_status payload))
  else if prefix2 payload x15 x00 then
    no_stderr (Ok (RandomModeSetNotification (flag payload 2 x00)))
  else if prefix2 payload x04 x00 then
    no_stderr (Ok (parse_measurement payload))
  else if prefix2 payload x0c x00 then
    no_stderr (Ok (ConsumptionOfLast12MonthsRequestedNotification
                     (None :: consumption_loop 4 3 payload)))
  else if prefix2 payload x0b x00 then
    no_stderr (Ok (ConsumptionOfLast30DaysRequestedNotification
                     (None :: consumption_loop 4 3 payload)))
  else if prefix2 payload x0a x00 then
    no_stderr (Ok (ConsumptionOfLast23HoursRequestedNotification
                     (consumption_loop 2 2 payload)))
  else if prefix3 payload x0f x00 x02 then
    no_stderr (Ok (ResetConsumptionNotification true))
  else if prefix3 payload x0f x00 x00 then
    no_stderr (Ok (FactoryResetNotification true))
  else if prefix2 payload x02 x00 then
    no_stderr (Ok (DeviceNameSetNotification true))
  else if prefix2 payload x11 x00 then
    no_stderr (parse_serial payload)
  else
    no_stderr (Raise UnsupportedMessage).

(** [MessageParser.parse] *)
Definition parse (data : bytes) : list stderr_line * result notification :=
  match _parse_payload data with
  | Raise e => ([], Raise e)
  | Ok payload => parse_notification payload
  end.

End Parser.

(** ** Notification reassembler: [SEM6000Delegate] *)

(** [SEM6000Delegate.handleNotification] *)
Definition handleNotification (_raw_notifications : list bytes) (data : bytes)
  : list bytes :=
  _raw_notifications ++ [data].

(** [SEM6000Delegate.has_final_raw_notification] *)
Definition has_final_raw_notification (_raw_notifications : list bytes) : bool :=
  match _raw_notifications with
  | [] => false
  | _ :: _ =>
      let last_notification := last _raw_notifications [] in
      if (length last_notification <? 2)%nat then false
      else if bytes_eqb (slice 2 4 last_notification) [x04; x00] then true
      else bytes_eqb (slice_last 2 last_notification) [xff; xff]
  end.

(** [while len(l): l.pop(0)] *)
Fixpoint pop_all (A : Type) (l : list A) : list A :=
  match l with
  | [] => []
  | _ :: l' => pop_all l'
  end.

(** [SEM6000Delegate.reset_notification_data] *)
Definition reset_notification_data (_raw_notifications : list bytes)
  : list bytes := [].

Section Delegate.
Context {ext : Externals}.

(** [SEM6000Delegate.consume_notification]: the lines printed, the value
    returned or the exception raised, and the buffer afterwards. *)
Definition consume_notification (debug : bool) (_raw_notifications : list bytes)
  : list stderr_line * result notification * list bytes :=
  let data := concat _raw_notifications in
  let raised (printed : list stderr_line) (e : exn) :=
    (printed ++ (if debug then [ReceivedDataLine data None] else []),
     Raise e, _raw_notifications) in
  if negb (has_final_raw_notification _raw_notifications)
  then raised [] IncompleteNotificationData
  else
    match parse data with
    | (printed, Raise e) => raised printed e
    | (printed, Ok notification) =>
        (printed ++
           (if debug then [ReceivedDataLine data (Some notification)] else []),
         Ok notification, pop_all _raw_notifications)
    end.

End Delegate.

(** ** Transport and session state

    [bluepy] is outside the repository.  The plug is a function from a
    written frame to the fragments it notifies in reply; fragments wait in
    [in_flight] until [waitForNotifications] delivers them one per call, and
    an empty queue is a timeout.  The answers of [getState] and the outcome
    of [connect] are given per call by [link_up] and [connect_ok]. *)

Inductive event : Type :=
  | EvDisconnect
  | EvConnect (addr : option string) (iface : option string) (ok : bool)
  | EvWrite (data : bytes) (with_response : bool).

Record World : Type := mkWorld {
  device : bytes -> list bytes;
  in_flight : list bytes;
  link_up : nat -> bool;
  n_getState : nat;
  connect_ok : nat -> bool;
  n_connect : nat;
  events : list event;
  stderr : list stderr_line
}.

Inductive Peripheral : Type := btle_Peripheral.
Inductive Characteristic : Type := btle_Characteristic (uuid : string).

Record SEM6000 : Type := mkSEM6000 {
  debug : bool;
  deviceAddr : option string;     (* connection_settings["deviceAddr"];
                                     "addrType" is always ADDR_TYPE_PUBLIC *)
  iface : option string;          (* connection_settings["iface"] *)
  pin : option string;
  _raw_notifications : list bytes;  (* _delegate._raw_notifications *)
  _peripheral : option Peripheral;
  _control_characteristics : option Characteristic;
  _name_characteristics : option Characteristic
}.

Definition CHARACTERISTICS_UUID_NAME : string :=
  "00002a00-0000-1000-8000-00805f9b34fb".
Definition CHARACTERISTICS_UUID_CONTROL : string :=
  "0000fff3-0000-1000-8000-00805f9b34fb".

Definition state : Type := (SEM6000 * World)%type.

(** Python truthiness of a [str] or [None]. *)
Definition truthy (s : option string) : bool :=
  match s with
  | None => false
  | Some EmptyString => false
  | Some _ => true
  end.

(** *** Field updates *)

Definition set_pin (p : option string) (o : SEM6000) : SEM6000 :=
  mkSEM6000 (debug o) (deviceAddr o) (iface o) p (_raw_notifications o)
            (_peripheral o) (_control_characteristics o) (_name_characteristics o).

Definition set_raw (r : list bytes) (o : SEM6000) : SEM6000 :=
  mkSEM6000 (debug o) (deviceAddr o) (iface o) (pin o) r
            (_peripheral o) (_control_characteristics o) (_name_characteristics o).

Definition set_peripheral (p : option Peripheral) (o : SEM6000) : SEM6000 :=
  mkSEM6000 (debug o) (deviceAddr o) (iface o) (pin o) (_raw_notifications o)
            p (_control_characteristics o) (_name_characteristics o).

Definition set_characteristics (c n : option Characteristic) (o : SEM6000)
  : SEM6000 :=
  mkSEM6000 (debug o) (deviceAddr o) (iface o) (pin o) (_raw_notifications o)
            (_peripheral o) c n.

Definition set_settings (a i : option string) (o : SEM6000) : SEM6000 :=
  mkSEM6000 (debug o) a i (pin o) (_raw_notifications o)
            (_peripheral o) (_control_characteristics o) (_name_characteristics o).

Definition log_event (e : event) (w : World) : World :=
  mkWorld (device w) (in_flight w) (link_up w) (n_getState w)
          (connect_ok w) (n_connect w) (events w ++ [e]) (stderr w).

Definition print_stderr (l : list stderr_line) (w : World) : World :=
  mkWorld (device w) (in_flight w) (link_up w) (n_getState w)
          (connect_ok w) (n_connect w) (events w) (stderr w ++ l).

Definition set_in_flight (f : list bytes) (w : World) : World :=
  mkWorld (device w) f (link_up w) (n_getState w)
          (connect_ok w) (n_connect w) (events w) (stderr w).

Definition tick_getState (w : World) : World :=
  mkWorld (device w) (in_flight w) (link_up w) (S (n_getState w))
          (connect_ok w) (n_connect w) (events w) (stderr w).

Definition tick_connect (w : World) : World :=
  mkWorld (device w) (in_flight w) (link_up w) (n_getState w)
          (connect_ok w) (S (n_connect w)) (events w) (stderr w).

(** *** The monad of engine methods: state passing with exceptions.
    A raised exception keeps the state reached so far. *)

Definition M (A : Type) : Type := state -> result A * state.

Definition ret (A : Type) (a : A) : M A := fun s => (Ok a, s).

Definition raise (A : Type) (e : exn) : M A := fun s => (Raise e, s).
Arguments raise {A} e.

Definition bind (A B : Type) (m : M A) (k : A -> M B) : M B :=
  fun s =>
    match m s with
    | (Ok a, s') => k a s'
    | (Raise e, s') => (Raise e, s')
    end.

(** [try: m except Exception as e: h e] *)
Definition try_except (A : Type) (m : M A) (h : exn -> M A) : M A :=
  fun s =>
    match m s with
    | (Ok a, s') => (Ok a, s')
    | (Raise e, s') => h e s'
    end.

Definition lift (A : Type) (r : result A) : M A := fun s => (r, s).

Definition get_obj : M SEM6000 := fun s => (Ok (fst s), s).
Definition get_world : M World := fun s => (Ok (snd s), s).
Definition modify_obj (f : SEM6000 -> SEM6000) : M unit :=
  fun s => (Ok tt, (f (fst s), snd s)).
Definition modify_world (f : World -> World) : M unit :=
  fun s => (Ok tt, (fst s, f (snd s))).

Declare Scope engine_scope.
Delimit Scope engine_scope with engine.
Notation "x <- m ;; k" := (bind m (fun x => k))
  (at level 61, m at next level, right associativity) : engine_scope.
Notation "m ;;; k" := (bind m (fun _ => k))
  (at level 61, right associativity) : engine_scope.
Open Scope engine_scope.

(** [for x in l: acc = body x acc] *)
Fixpoint for_each (A S : Type) (l : list A) (body : A -> S -> M S) (acc : S)
  : M S :=
  match l with
  | [] => ret acc
  | x :: l' => acc' <- body x acc ;; for_each l' body acc'
  end.

(** ** Transaction engine: [SEM6000] *)

(** [Peripheral.waitForNotifications] called until it times out or the
    delegate holds a final fragment; each delivered fragment goes through
    [handleNotification].  Returns the queue left and the buffer. *)
Fixpoint wait_loop (in_flight raw : list bytes) : list bytes * list bytes :=
  match in_flight with
  | [] => ([], raw)
  | data :: in_flight' =>
      let raw' := handleNotification raw data in
      if has_final_raw_notification raw' then (in_flight', raw')
      else wait_loop in_flight' raw'
  end.

(** Maximal nesting of [_send_command] inside [_reconnect] inside
    [authorize] before the interpreter raises [RecursionError]. *)
Definition max_nesting : nat := 333.

Section Engine.
Context {ext : Externals}.

(** [SEM6000._disconnect] *)
Definition _disconnect : M bool :=
  o <- get_obj ;;
  match _peripheral o with
  | Some _ =>
      modify_world (log_event EvDisconnect) ;;;
      modify_obj (set_peripheral None) ;;;
      modify_obj (set_characteristics None None) ;;;
      ret true
  | None => ret false
  end.

(** [Peripheral.connect]: [false] is a raised [BTLEException]. *)
Definition transport_connect : M bool :=
  o <- get_obj ;;
  w <- get_world ;;
  let ok := connect_ok w (n_connect w) in
  modify_world tick_connect ;;;
  modify_world (log_event (EvConnect (deviceAddr o) (iface o) ok)) ;;;
  ret ok.

(** [SEM6000._reconnect], over the [authorize] it calls. *)
Definition _reconnect_with (authorize : string -> M notification) : M unit :=
  _disconnect ;;;
  modify_obj (set_peripheral (Some btle_Peripheral)) ;;;
  ok <- transport_connect ;;
  (if ok then ret tt else (_disconnect ;;; raise BTLEException)) ;;;
  modify_obj (set_characteristics
                (Some (btle_Characteristic CHARACTERISTICS_UUID_CONTROL))
                (Some (btle_Characteristic CHARACTERISTICS_UUID_NAME))) ;;;
  o <- get_obj ;;
  if truthy (pin o) then
    match pin o with
    | Some p =>
        try_except (authorize p ;;; ret tt)
                   (fun e => _disconnect ;;; raise e)
    | None => ret tt
    end
  else ret tt.

(** [SEM6000._is_connected]: [getState() != "conn"] and a raised
    [BTLEInternalError] both answer [False]. *)
Definition _is_connected : M bool :=
  o <- get_obj ;;
  match _peripheral o with
  | None => ret false
  | Some _ =>
      w <- get_world ;;
      modify_world tick_getState ;;;
      ret (link_up w (n_getState w))
  end.

(** [SEM6000._wait_for_notifications] *)
Definition _wait_for_notifications : M unit :=
  o <- get_obj ;;
  w <- get_world ;;
  let '(in_flight', raw') := wait_loop (in_flight w) (_raw_notifications o) in
  modify_world (set_in_flight in_flight') ;;;
  modify_obj (set_raw raw').

(** [Characteristic.write] *)
Definition transport_write (encoded_command : bytes) (with_response : bool)
  : M unit :=
  w <- get_world ;;
  modify_world (log_event (EvWrite encoded_command with_response)) ;;;
  modify_world (set_in_flight (in_flight w ++ device w encoded_command)).

(** [SEM6000._consume_notification] *)
Definition _consume_notification : M notification :=
  fun s =>
    let '(printed, r, raw') :=
      consume_notification (debug (fst s)) (_raw_notifications (fst s)) in
    (r, (set_raw raw' (fst s), print_stderr printed (snd s))).

(** [SEM6000.authorize], over the [_send_command] it calls. *)
Definition authorize_with (_send_command : command -> bool -> M unit)
    (pin : string) : M notification :=
  let command := AuthorizeCommand pin in
  _send_command command true ;;;
  notification <- _consume_notification ;;
  match notification with
  | AuthorizationNotification was_successful =>
      if was_successful then
        modify_obj (set_pin (Some pin)) ;;; ret notification
      else
        modify_obj (set_pin None) ;;; raise AuthenticationFailed
  | _ => raise AuthenticationFailed
  end.

(** [SEM6000._send_command]; [nesting] bounds the calls that
    [_reconnect] makes back into it through [authorize]. *)
Fixpoint _send_command_at (nesting : nat) (command : command)
    (with_response : bool) : M unit :=
  match nesting with
  | O => raise RecursionError
  | S nesting' =>
      encoded_command <- lift (encode command) ;;
      o <- get_obj ;;
      (if debug o
       then modify_world (print_stderr [SentDataLine encoded_command command])
       else ret tt) ;;;
      modify_obj (set_raw (reset_notification_data (_raw_notifications o))) ;;;
      connected <- _is_connected ;;
      (if negb connected then
         if truthy (deviceAddr o) && truthy (pin o)
         then _reconnect_with (authorize_with (_send_command_at nesting'))
         else raise NotConnected
       else ret tt) ;;;
      transport_write encoded_command with_response ;;;
      if with_response then _wait_for_notifications else ret tt
  end.

Definition _send_command : command -> bool -> M unit :=
  _send_command_at max_nesting.

Definition authorize : string -> M notification :=
  authorize_with _send_command.

Definition _reconnect : M unit := _reconnect_with authorize.

(** [SEM6000.connect] *)
Definition connect (deviceAddr iface : option string) : M unit :=
  modify_obj (set_settings deviceAddr iface) ;;;
  _reconnect.

(** [SEM6000.power_on] *)
Definition power_on : M notification :=
  let command := PowerSwitchCommand true in
  _send_command command true ;;;
  notification <- _consume_notification ;;
  match notification with
  | PowerSwitchNotification true => ret notification
  | _ => raise PowerOnFailed
  end.

(** The body of the loop over further pages in [request_scheduler]. *)
Definition request_scheduler_page (page_number : Z)
    (scheduler_entries : list SchedulerEntry) : M (list SchedulerEntry) :=
  let command := RequestSchedulerCommand page_number in
  _send_command command true ;;;
  further_notification <- _consume_notification ;;
  match further_notification with
  | SchedulerRequestedNotification _ further_entries =>
      ret (scheduler_entries ++ further_entries)
  | _ => raise RequestSchedulerSecondPageFailed
  end.

(** [range(1, max_page_number + 1)] *)
Definition further_pages (max_page_number : Z) : list Z :=
  map Z.of_nat (seq 1 (Z.to_nat max_page_number)).

(** [SEM6000.request_scheduler] *)
Definition request_scheduler : M notification :=
  let command := RequestSchedulerCommand 0 in
  _send_command command true ;;;
  notification <- _consume_notification ;;
  match notification with
  | SchedulerRequestedNotification number_of_schedulers scheduler_entries =>
      let max_page_number := (number_of_schedulers / 4)%Z in
      scheduler_entries' <-
        for_each (further_pages max_page_number)
                 request_scheduler_page scheduler_entries ;;
      ret (SchedulerRequestedNotification number_of_schedulers scheduler_entries')
  | _ => raise RequestSchedulerFirstPageFailed
  end.

(** [SEM6000.edit_scheduler]: the keyword arguments of the command are
    evaluated left to right, and the name [tuil] is bound nowhere. *)
Definition edit_scheduler
    (slot_id is_active is_action_turn_on repeat_on_weekdays isodatetime : PyVal)
  : M notification :=
  date_time <- lift (fromisoformat isodatetime) ;;
  date_time <- lift (datetime_new (dt_year date_time mod 100)
                                  (dt_month date_time) (dt_day date_time)
                                  (dt_hour date_time) (dt_minute date_time)) ;;
  slot <- lift (py_int slot_id) ;;
  active <- lift (_parse_boolean is_active) ;;
  action <- lift (_parse_boolean is_action_turn_on) ;;
  weekdays <- raise (A := list nat) (NameError "tuil") ;;
  let command :=
    EditSchedulerCommand slot
      (mkScheduler active action weekdays
                   (dt_year date_time) (dt_month date_time) (dt_day date_time)
                   (dt_hour date_time) (dt_minute date_time)) in
  _send_command command true ;;;
  notification <- _consume_notification ;;
  match notification with
  | SchedulerSetNotification true => ret notification
  | _ => raise EditSchedulerFailed
  end.

End Engine.

(** ** A sample instantiation of the collaborators, for concrete runs *)

Definition ascii_decode (l : bytes) : option string :=
  if forallb (fun b => (byte_val b <? 128)%Z) l
  then Some (string_of_list_byte l)
  else None.

(** [0x0F, length, payload, checksum, 0xFF, 0xFF] *)
Definition sample_frame (payload : bytes) : bytes :=
  match Byte.of_N (N.of_nat (length payload + 1)),
        Byte.of_N (Z.to_N (frame_checksum payload)) with
  | Some l, Some c => [x0f; l] ++ payload ++ [c; xff; xff]
  | _, _ => []
  end.

Definition sample_encode (c : command) : result bytes :=
  match c with
  | AuthorizeCommand p =>
      Ok (sample_frame ([x17; x00; x00] ++ list_byte_of_string p))
  | PowerSwitchCommand on =>
      Ok (sample_frame [x03; x00; if on then x01 else x00])
  | RequestSchedulerCommand page =>
      match Byte.of_N (Z.to_N page) with
      | Some b => Ok (sample_frame [x14; x00; b])
      | None => Raise EncodeError
      end
  | EditSchedulerCommand _ _ => Raise EncodeError
  end.

#[local] Instance sample_externals : Externals := {|
  now_year := 2024;
  utf8_decode := ascii_decode;
  encode := sample_encode;
  PyVal := string;
  fromisoformat := fun _ => Ok (mkDatetime 2024 5 17 6 30);
  datetime_new := fun y m d h mi =>
    if (y <? 1)%Z then Raise ValueError else Ok (mkDatetime y m d h mi);
  py_int := fun _ => Ok 0%Z;
  _parse_boolean := fun _ => Ok true
|}.

(** A plug holding [n] schedulers: it acknowledges an authorization and a
    power switch, and answers the request for page [p] with a page of one
    entry in slot [p]; every reply is a single fragment. *)
Definition sample_entry (slot : byte) : bytes :=
  let body := [x01; x01; x7f; x18; x05; x11; x06; x1e; x00; x00] in
  match Byte.of_N (Z.to_N (Z.land (sum_bytes body + 20) 255)) with
  | Some c => [slot] ++ body ++ [c]
  | None => []
  end.

Definition sample_plug (n : byte) (written : bytes) : list bytes :=
  match written with
  | _ :: _ :: x17 :: x00 :: _ => [sample_frame [x17; x00; x00; x00; x00]]
  | _ :: _ :: x03 :: x00 :: _ => [sample_frame [x03; x00; x00]]
  | _ :: _ :: x14 :: x00 :: p :: _ =>
      [sample_frame ([x14; x00; n] ++ sample_entry p)]
  | _ => []
  end.

Definition sample_address : string := "00:11:22:33:44:55".

Definition sample_session (remembered : option string) : SEM6000 :=
  mkSEM6000 false (Some sample_address) None remembered []
            (Some btle_Peripheral)
            (Some (btle_Characteristic CHARACTERISTICS_UUID_CONTROL))
            (Some (btle_Characteristic CHARACTERISTICS_UUID_NAME)).

Definition sample_world (plug : bytes -> list bytes) (up : nat -> bool)
  : World :=
  mkWorld plug [] up 0 (fun _ => true) 0 [] [].

Definition always_up : nat -> bool := fun _ => true.

(** The frame [sample_encode] produces for the request of page [p]. *)
Definition sample_page_request (p : Z) : bytes :=
  match sample_encode (RequestSchedulerCommand p) with
  | Ok b => b
  | Raise _ => []
  end.

(** * Vocabulary of the properties *)

(** ** Runs *)

Definition run_result (A : Type) (r : result A * state) : result A := fst r.

Definition run_events (A : Type) (r : result A * state) : list event :=
  events (snd (snd r)).



(** ** Transactions over a link that is up *)

(** A reply that the wait loop delivers whole, up to a final fragment. *)
Definition complete_reply (fragments : list bytes) : Prop :=
  wait_loop fragments [] = ([], fragments)
  /\ has_final_raw_notification fragments = true.

(** The world after [_send_command] wrote [encoded] over a link found up. *)
Definition world_after_send (o : SEM6000) (w : World) (c : command)
    (encoded : bytes) (wr : bool) : World :=
  log_event (EvWrite encoded wr)
    (tick_getState
       (if debug o then print_stderr [SentDataLine encoded c] w else w)).

(** The world after the reply to a written command was consumed. *)
Definition world_after_transaction (o : SEM6000) (w : World) (c : command)
    (encoded : bytes) (printed : list stderr_line) (n : notification) : World :=
  print_stderr
    (printed ++
       (if debug o
        then [ReceivedDataLine (concat (device w encoded)) (Some n)] else []))
    (set_in_flight [] (world_after_send o w c encoded true)).

(** ** Scheduler paging *)

Definition page_write (enc : Z -> bytes) (p : Z) : event :=
  EvWrite (enc p) true.

(** [ceil(n/4)] *)
Definition ceil_quarter (n : Z) : Z := (- (- n / 4))%Z.

(** ** Reconnect on send *)

(** The answer of [_is_connected] in a state, and the call of [getState]
    that the next check will make. *)
Definition found_connected (o : SEM6000) (w : World) : bool :=
  match _peripheral o with
  | None => false
  | Some _ => link_up w (n_getState w)
  end.

Definition next_getState (o : SEM6000) (w : World) : nat :=
  match _peripheral o with
  | None => n_getState w
  | Some _ => S (n_getState w)
  end.

(** What [_disconnect] tells the transport. *)
Definition disconnect_events (o : SEM6000) : list event :=
  match _peripheral o with
  | None => []
  | Some _ => [EvDisconnect]
  end.

(** Session and world once [_reconnect] has connected and fetched the
    characteristics. *)
Definition after_disconnect_obj (o : SEM6000) : SEM6000 :=
  match _peripheral o with
  | Some _ => set_characteristics None None (set_peripheral None o)
  | None => o
  end.

Definition after_connect_obj (o : SEM6000) : SEM6000 :=
  set_characteristics
    (Some (btle_Characteristic CHARACTERISTICS_UUID_CONTROL))
    (Some (btle_Characteristic CHARACTERISTICS_UUID_NAME))
    (set_peripheral (Some btle_Peripheral) (after_disconnect_obj o)).

Definition after_connect_world (o : SEM6000) (w : World) : World :=
  log_event (EvConnect (deviceAddr o) (iface o) true)
    (tick_connect
       (match _peripheral o with
        | Some _ => log_event EvDisconnect w
        | None => w
        end)).

(** ** Payloads *)

(** The [i]-th transmitted 4-byte entry of a consumption payload. *)
Definition transmitted_entry (payload : bytes) (i : nat) : bytes :=
  slice (2 + 4 * i) (2 + 4 * i + 4) payload.

(** The [i]-th transmitted 2-byte entry of a 23-hours payload. *)
Definition transmitted_reading (payload : bytes) (i : nat) : bytes :=
  slice (2 + 2 * i) (2 + 2 * i + 2) payload.

(** The checksum byte received with entry [i] of a scheduler page and the
    one computed. *)
Definition entry_checksum_received (payload : bytes) (i : nat) : Z :=
  from_bytes_big (slice (14 + i * 12) (15 + i * 12) payload).

Definition entry_checksum (payload : bytes) (i : nat) : Z :=
  ((sum_bytes (slice (4 + i * 12) (14 + i * 12) payload) + 20) mod 256)%Z.

Definition entry_slot (payload : bytes) (i : nat) : Z :=
  from_bytes_big (slice (3 + i * 12) (4 + i * 12) payload).

Definition entry_mismatch (payload : bytes) (i : nat) : bool :=
  negb (entry_checksum_received payload i =? entry_checksum payload i)%Z.

Definition mismatch_report (payload : bytes) (i : nat) : stderr_line :=
  InvalidSchedulerChecksumLine
    (entry_slot payload i) (entry_checksum payload i)
    (entry_checksum_received payload i).

Section Vocabulary.
Context {ext : Externals}.

(** Entry [i] as decoded from its slot byte and the eight bytes behind it;
    the checksum byte takes no part. *)
Definition entry_at (payload : bytes) (i : nat) : SchedulerEntry :=
  mkSchedulerEntry (entry_slot payload i)
    (_parse_scheduler (slice (4 + i * 12) (12 + i * 12) payload)).

(** The plug [dev] answers the request for page [p], encoded as [encoded],
    with a complete reply that decodes to a scheduler page declaring [n]
    schedulers and carrying the entries [es]. *)
Definition page_served (dev : bytes -> list bytes) (p : Z) (encoded : bytes)
    (n : Z) (es : list SchedulerEntry) : Prop :=
  encode (RequestSchedulerCommand p) = Ok encoded
  /\ complete_reply (dev encoded)
  /\ snd (parse (concat (dev encoded))) = Ok (SchedulerRequestedNotification n es).

End Vocabulary.

(** ** Concrete inputs *)


(** A plug holding exactly four schedulers: page 0 carries the four
    entries, in a frame of 56 bytes delivered as fragments of 20, 20 and 16
    bytes, and every further page is empty. *)
Definition four_schedulers_page_0 : bytes :=
  sample_frame
    ([x14; x00; x04] ++ sample_entry x00 ++ sample_entry x01
     ++ sample_entry x02 ++ sample_entry x03).

Definition four_schedulers_plug (written : bytes) : list bytes :=
  match written with
  | _ :: _ :: x14 :: x00 :: x00 :: _ =>
      [slice 0 20 four_schedulers_page_0; slice 20 40 four_schedulers_page_0;
       slice 40 56 four_schedulers_page_0]
  | _ :: _ :: x14 :: x00 :: _ => [sample_frame [x14; x00; x04]]
  | _ => []
  end.

(** Buffers that cannot be consumed: a power-switch reply cut off after
    three bytes, and a whole one whose checksum byte is wrong. *)
Definition unfinished_buffer : list bytes := [[x0f; x04; x03]].

Definition unparsable_buffer : list bytes :=
  [[x0f; x04; x03; x00; x00; x05; xff; xff]].

Definition unfinished_state : state :=
  (set_raw unfinished_buffer (sample_session None),
   sample_world (sample_plug x00) always_up).

Definition unparsable_state : state :=
  (set_raw unparsable_buffer (sample_session None),
   sample_world (sample_plug x00) always_up).

Definition sample_23_hours : bytes :=
  sample_frame [x0a; x00; x00; x07; x01; x02].

(** The entries the sample plug reports on page [p]. *)
Definition sample_entries (p : Z) : list SchedulerEntry :=
  match snd (parse (concat (sample_plug x0a (sample_page_request p)))) with
  | Ok (SchedulerRequestedNotification _ es) => es
  | _ => []
  end.

(** A link reported down for the first [k] calls of [getState]. *)
Definition down_for (k : nat) : nat -> bool := fun i => (k <=? i)%nat.

Definition sample_pin : string := "1234".

Definition other_pin : string := "0000".

Definition sample_authorize_frame : bytes :=
  match sample_encode (AuthorizeCommand sample_pin) with
  | Ok b => b
  | Raise _ => []
  end.

Definition sample_power_on_frame : bytes :=
  match sample_encode (PowerSwitchCommand true) with
  | Ok b => b
  | Raise _ => []
  end.

(** Plugs that answer every command with a power-switch acknowledgement,
    and with a refused authorization. *)
Definition wrong_kind_plug : bytes -> list bytes :=
  fun _ => [sample_frame [x03; x00; x00]].

Definition refusing_plug : bytes -> list bytes :=
  fun _ => [sample_frame [x17; x00; x01; x00; x00]].

Definition sample_12_months : bytes :=
  sample_frame
    ([x0c; x00] ++
     [x00; x00; x01; x00] ++ [x00; x00; x02; x00] ++ [x00; x00; x03; x00] ++
     [x00; x00; x04; x00] ++ [x00; x00; x05; x00] ++ [x00; x00; x06; x00] ++
     [x00; x00; x07; x00] ++ [x00; x00; x08; x00] ++ [x00; x00; x09; x00] ++
     [x00; x00; x0a; x00] ++ [x00; x01; x00; x00]).

(** A page of two entries; the checksum byte of the second one is wrong. *)
Definition sample_scheduler_page : bytes :=
  sample_frame
    ([x14; x00; x02]
     ++ sample_entry x00
     ++ [x01; x01; x00; x03; x18; x05; x11; x06; x1e; x00; x00; x00]).

(** * Further methods and vocabulary *)

(** ** Frames *)

(** A frame laid out as header, length, payload, checksum and what follows. *)
Definition framed (lb : byte) (payload : bytes) (cb : byte) (suffix : bytes)
  : bytes :=
  x0f :: lb :: payload ++ cb :: suffix.

Definition frame_fields_ok (lb : byte) (payload : bytes) (cb : byte) : Prop :=
  byte_val lb = (Z.of_nat (length payload) + 1)%Z
  /\ byte_val cb = ((1 + sum_bytes payload) mod 256)%Z.


(** ** The catalogue of payload kinds, read off the prefix tests of
       [MessageParser.parse] *)

(** The first two payload bytes that lead to a notification of each kind. *)
Definition opcode_of (n : notification) : bytes :=
  match n with
  | AuthorizationNotification _ | ChangePinNotification _
  | ResetPinNotification _ => [x17; x00]
  | PowerSwitchNotification _ => [x03; x00]
  | LEDSwitchNotification _ | PricesSetNotification _
  | ReducedPeriodSetNotification _ | ResetConsumptionNotification _
  | FactoryResetNotification _ => [x0f; x00]
  | SynchronizeDateAndTimeNotification _ => [x01; x00]
  | RequestedSettingsNotification _ _ _ _ _ _ _ => [x10; x00]
  | PowerLimitSetNotification _ => [x05; x00]
  | RequestedTimerStatusNotification _ _ _ _ _ _ _ _ _ => [x09; x00]
  | TimerSetNotification _ => [x08; x00]
  | SchedulerRequestedNotification _ _ => [x14; x00]
  | SchedulerSetNotification _ => [x13; x00]
  | RandomModeStatusRequestedNotification _ _ _ _ _ _ => [x16; x00]
  | RandomModeSetNotification _ => [x15; x00]
  | MeasurementRequestedNotification _ _ _ _ _ _ => [x04; x00]
  | ConsumptionOfLast12MonthsRequestedNotification _ => [x0c; x00]
  | ConsumptionOfLast30DaysRequestedNotification _ => [x0b; x00]
  | ConsumptionOfLast23HoursRequestedNotification _ => [x0a; x00]
  | DeviceNameSetNotification _ => [x02; x00]
  | DeviceSerialRequestedNotification _ => [x11; x00]
  end.

(** The payload length that the branch of a kind insists on, if any. *)
Definition required_length (n : notification) : option nat :=
  match n with
  | AuthorizationNotification _ | ChangePinNotification _
  | ResetPinNotification _ => Some 5
  | PowerSwitchNotification _ | SynchronizeDateAndTimeNotification _
  | PowerLimitSetNotification _ | TimerSetNotification _ => Some 3
  | LEDSwitchNotification _ | PricesSetNotification _
  | ReducedPeriodSetNotification _ => Some 4
  | RequestedSettingsNotification _ _ _ _ _ _ _
  | RequestedTimerStatusNotification _ _ _ _ _ _ _ _ _ => Some 13
  | _ => None
  end.

(** The kind selected by byte 3 of a [17 00] payload. *)
Definition pin_family (selector : byte) (was_successful : bool)
  : option notification :=
  match selector with
  | x00 => Some (AuthorizationNotification was_successful)
  | x01 => Some (ChangePinNotification was_successful)
  | x02 => Some (ResetPinNotification was_successful)
  | _ => None
  end.

(** ** Further methods of [SEM6000]

    [message.py] builds the commands and is not part of the sources, so the
    command objects are taken as given; [Exception] stands for the
    constructor of Python's exception carrying a message. *)

Section FurtherMethods.
Context {ext : Externals}.

Variable Exception : string -> exn.
Variable ChangePinCommand : option string -> string -> command.
Variable RequestMeasurementCommand : command.
Variable RequestConsumptionOfLast12MonthsCommand : command.
Variable RequestConsumptionOfLast30DaysCommand : command.
Variable RequestConsumptionOfLast23HoursCommand : command.
Variable ResetConsumptionCommand : command.
Variable FactoryResetCommand : command.

(** [SEM6000.change_pin] *)
Definition change_pin (new_pin : string) : M notification :=
  o <- get_obj ;;
  let command := ChangePinCommand (pin o) new_pin in
  _send_command command true ;;;
  notification <- _consume_notification ;;
  match notification with
  | ChangePinNotification true => ret notification
  | _ => raise (Exception "Change PIN failed")
  end.

(** [SEM6000.power_off] *)
Definition power_off : M notification :=
  let command := PowerSwitchCommand false in
  _send_command command true ;;;
  notification <- _consume_notification ;;
  match notification with
  | PowerSwitchNotification true => ret notification
  | _ => raise (Exception "Power off failed")
  end.

(** [SEM6000.request_measurement] *)
Definition request_measurement : M notification :=
  let command := RequestMeasurementCommand in
  _send_command command true ;;;
  notification <- _consume_notification ;;
  match notification with
  | MeasurementRequestedNotification _ _ _ _ _ _ => ret notification
  | _ => raise (Exception "Request measurement failed")
  end.

(** [SEM6000.request_consumption_of_last_12_months]; the statement
    [raise("...")] raises a [str], which the interpreter answers with
    [TypeError]. *)
Definition request_consumption_of_last_12_months : M notification :=
  let command := RequestConsumptionOfLast12MonthsCommand in
  _send_command command true ;;;
  notification <- _consume_notification ;;
  match notification with
  | ConsumptionOfLast12MonthsRequestedNotification _ => ret notification
  | _ => raise TypeError
  end.

(** [SEM6000.request_consumption_of_last_30_days] *)
Definition request_consumption_of_last_30_days : M notification :=
  let command := RequestConsumptionOfLast30DaysCommand in
  _send_command command true ;;;
  notification <- _consume_notification ;;
  match notification with
  | ConsumptionOfLast30DaysRequestedNotification _ => ret notification
  | _ => raise TypeError
  end.

(** [SEM6000.request_consumption_of_last_23_hours] *)
Definition request_consumption_of_last_23_hours : M notification :=
  let command := RequestConsumptionOfLast23HoursCommand in
  _send_command command true ;;;
  notification <- _consume_notification ;;
  match notification with
  | ConsumptionOfLast23HoursRequestedNotification _ => ret notification
  | _ => raise TypeError
  end.

(** [SEM6000.reset_consumption] *)
Definition reset_consumption : M notification :=
  let command := ResetConsumptionCommand in
  _send_command command true ;;;
  notification <- _consume_notification ;;
  match notification with
  | ResetConsumptionNotification true => ret notification
  | _ => raise TypeError
  end.

(** [SEM6000.factory_reset] *)
Definition factory_reset : M notification :=
  let command := FactoryResetCommand in
  _send_command command true ;;;
  notification <- _consume_notification ;;
  match notification with
  | FactoryResetNotification true => ret notification
  | _ => raise TypeError
  end.

End FurtherMethods.

(** ** Outcomes of a transaction *)

(** What a method makes of the decoded reply [n]: [n] itself when it is
    accepted, the method's exception otherwise. *)
Definition outcome (accepted : notification -> bool) (failure : exn)
    (n : notification) : result notification :=
  if accepted n then Ok n else Raise failure.

Definition is_power_switched (n : notification) : bool :=
  match n with PowerSwitchNotification true => true | _ => false end.

Definition is_pin_changed (n : notification) : bool :=
  match n with ChangePinNotification true => true | _ => false end.

Definition is_measurement (n : notification) : bool :=
  match n with MeasurementRequestedNotification _ _ _ _ _ _ => true | _ => false end.

Definition is_12_months (n : notification) : bool :=
  match n with ConsumptionOfLast12MonthsRequestedNotification _ => true | _ => false end.

Definition is_30_days (n : notification) : bool :=
  match n with ConsumptionOfLast30DaysRequestedNotification _ => true | _ => false end.

Definition is_23_hours (n : notification) : bool :=
  match n with ConsumptionOfLast23HoursRequestedNotification _ => true | _ => false end.

Definition is_consumption_reset (n : notification) : bool :=
  match n with ResetConsumptionNotification true => true | _ => false end.

Definition is_factory_reset (n : notification) : bool :=
  match n with FactoryResetNotification true => true | _ => false end.

Definition is_scheduler_page (n : notification) : bool :=
  match n with SchedulerRequestedNotification _ _ => true | _ => false end.

(** The reply to [encoded] that the plug of [w] sends is complete and
    decodes to [n], printing [printed]. *)
Definition replies (w : World) (encoded : bytes) (printed : list stderr_line)
    (n : notification) {ext : Externals} : Prop :=
  complete_reply (device w encoded)
  /\ parse (concat (device w encoded)) = (printed, Ok n).

(** A session whose link is found up and whose transport queue is empty. *)
Definition ready (o : SEM6000) (w : World) : Prop :=
  _peripheral o <> None
  /\ link_up w (n_getState w) = true
  /\ in_flight w = [].

(** The methods that raise a [str] when the reply is not the one they
    wait for, each with its command and the replies it accepts. *)
Definition methods_raising_a_str {ext : Externals}
    (c12 c30 c23 creset cfactory : command)
  : list (M notification * command * (notification -> bool)) :=
  [ (request_consumption_of_last_12_months c12, c12, is_12_months);
    (request_consumption_of_last_30_days c30, c30, is_30_days);
    (request_consumption_of_last_23_hours c23, c23, is_23_hours);
    (reset_consumption creset, creset, is_consumption_reset);
    (factory_reset cfactory, cfactory, is_factory_reset) ].

(** ** Further concrete inputs *)

(** A power-switch acknowledgement with its fields spelled out. *)
Definition sample_switch_payload : bytes := [x03; x00; x00].

Definition sample_scheduler_data : bytes :=
  [x01; x01; x7f; x18; x05; x11; x06; x1e].

Definition sample_settings_payload : bytes :=
  [x10; x00; x01; x1e; x14; x05; x46; x01; x68; x01; x00; x0e; x10].

Definition sample_measurement_payload : bytes :=
  [x04; x00; x01; x00; x3a; x98; xe6; x00; x41; x32; x00; x00;
   x00; x00; x01; x02].

(** A measurement frame without terminator. *)
Definition sample_measurement_frame : bytes :=
  framed x11 sample_measurement_payload x34 [].

(** Plugs that stay silent, that answer with a measurement, with a
    successful change of PIN, and with a page of four schedulers followed
    by a power-switch acknowledgement. *)
Definition silent_plug : bytes -> list bytes := fun _ => [].

Definition measuring_plug : bytes -> list bytes :=
  fun _ => [sample_measurement_frame].

Definition pin_changing_plug : bytes -> list bytes :=
  fun _ => [sample_frame [x17; x00; x00; x01; x00]].

Definition page_then_switch_plug (written : bytes) : list bytes :=
  match written with
  | _ :: _ :: x14 :: x00 :: x00 :: _ => four_schedulers_plug written
  | _ => [sample_frame sample_switch_payload]
  end.

(** Stand-ins for the exception constructor and for commands that
    [message.py] would build. *)
Definition sample_Exception (message : string) : exn := NameError message.

Definition sample_change_pin_command (old : option string) (new : string)
  : command := AuthorizeCommand new.

Definition sample_request_command : command := RequestSchedulerCommand 4.

(** * Properties *)

(** ** Tactics *)

(** Runs the state-passing plumbing of an engine method. *)
Ltac run_engine :=
  cbv [bind modify_world modify_obj ret raise lift try_except
       get_obj get_world
       _is_connected transport_write transport_connect _disconnect
       _wait_for_notifications
       fst snd negb
       set_raw set_peripheral set_pin set_characteristics set_settings
       print_stderr tick_getState tick_connect log_event set_in_flight
       device in_flight link_up n_getState connect_ok n_connect events stderr
       debug deviceAddr iface pin _raw_notifications _peripheral
       _control_characteristics _name_characteristics
       reset_notification_data].

(** Splits the hypothesis [H] on every test it is stuck on. *)
Ltac split_tests H :=
  repeat match type of H with
         | context [if ?c then _ else _] => destruct c
         | context [match ?x with Some _ => _ | None => _ end] => destruct x
         | context [fold_left ?f ?l ?a] => destruct (fold_left f l a)
         end.

(** Walks the chain of prefix tests of [parse_notification]; [leaf] closes
    a branch from the hypothesis holding its result. *)
Ltac walk_dispatch leaf :=
  repeat match goal with
         | |- snd (if ?c then _ else _) = _ -> _ =>
             destruct c;
             [ let H := fresh "H" in
               intros H;
               cbv [no_stderr with_length parse_timer_status bind_result
                    index parse_scheduler_page parse_serial] in H;
               split_tests H; cbn [snd] in H; leaf H
             | ]
         end.

Ltac absurd_or_same H :=
  first [ discriminate H | injection H as <-; reflexivity ].

(** ** Bytes *)

Lemma bytes_eqb_eq (a b : bytes) : bytes_eqb a b = true <-> a = b.
Proof.
  revert b; induction a as [|x a IH]; intros [|y b]; simpl;
    try (split; [discriminate | discriminate]); try tauto.
  rewrite andb_true_iff, IH. split.
  - intros [Hxy ->]. apply byte_dec_bl in Hxy. now subst.
  - intros [= -> ->]. split; [now apply byte_dec_lb | reflexivity].
Qed.

Lemma bytes_eqb_neq (a b : bytes) : bytes_eqb a b = false <-> a <> b.
Proof.
  rewrite <- bytes_eqb_eq. destruct (bytes_eqb a b); split;
    congruence.
Qed.

Lemma land_255_mod (x : Z) : Z.land x 255 = (x mod 256)%Z.
Proof. change 255%Z with (Z.ones 8). now rewrite Z.land_ones by lia. Qed.

Lemma frame_checksum_mod (payload : bytes) :
  frame_checksum payload = ((1 + sum_bytes payload) mod 256)%Z.
Proof. apply land_255_mod. Qed.

(** ** Frame codec *)

Section FrameCodec.

Variable data : bytes.
Variables lb cb : byte.
Let length_of_payload := Z.to_nat (byte_val lb).
Let payload := slice 2 (2 + length_of_payload - 1) data.

Hypothesis Hlength : nth_error data 1 = Some lb.
Hypothesis Hchecksum : nth_error data (2 + length_of_payload - 1) = Some cb.
Hypothesis Hdiffers : byte_val cb <> ((1 + sum_bytes payload) mod 256)%Z.

Lemma unwrap_mismatch_raises :
  slice 0 1 data = [x0f] ->
  _parse_payload data =
    Raise (InvalidChecksum ((1 + sum_bytes payload) mod 256) (byte_val cb)).
Proof.
  intros Hheader. unfold _parse_payload.
  apply bytes_eqb_eq in Hheader. rewrite Hheader. cbn [negb].
  rewrite Hlength. cbv zeta. fold length_of_payload. rewrite Hchecksum.
  fold payload. rewrite frame_checksum_mod.
  destruct (Z.eqb_spec (byte_val cb) ((1 + sum_bytes payload) mod 256)) as [E|_].
  - contradiction.
  - reflexivity.
Qed.

Lemma unwrap_mismatch_no_payload : is_ok (_parse_payload data) = false.
Proof.
  destruct (bytes_eqb (slice 0 1 data) [x0f]) eqn:Hh.
  - apply bytes_eqb_eq in Hh. now rewrite unwrap_mismatch_raises.
  - unfold _parse_payload. now rewrite Hh.
Qed.

End FrameCodec.

(** C4. A frame whose checksum byte differs from [(1 + sum(payload)) mod 256]
    is never unwrapped to a payload, whatever its length byte says; when
    the header byte is [0x0F] the exception raised is the checksum mismatch,
    carrying the computed and the received checksum. *)
Theorem unwrap_rejects_checksum_mismatch (data : bytes) (lb cb : byte) :
  let length_of_payload := Z.to_nat (byte_val lb) in
  let payload := slice 2 (2 + length_of_payload - 1) data in
  slice 0 1 data = [x0f] ->
  nth_error data 1 = Some lb ->
  nth_error data (2 + length_of_payload - 1) = Some cb ->
  byte_val cb <> ((1 + sum_bytes payload) mod 256)%Z ->
  _parse_payload data =
    Raise (InvalidChecksum ((1 + sum_bytes payload) mod 256) (byte_val cb))
  /\ is_ok (_parse_payload data) = false.
Proof.
  intros L P Hh Hl Hc Hd. split.
  - now apply unwrap_mismatch_raises.
  - now apply unwrap_mismatch_no_payload with (lb := lb) (cb := cb).
Qed.

Lemma unwrap_rejects_checksum_mismatch_witness :
  _parse_payload [x0f; x04; x03; x00; x00; x05; xff; xff] =
    Raise (InvalidChecksum 4 5)
  /\ is_ok (_parse_payload [x0f; x04; x03; x00; x00; x05; xff; xff]) = false.
Proof.
  apply (@unwrap_rejects_checksum_mismatch
           [x0f; x04; x03; x00; x00; x05; xff; xff] x04 x05);
    [reflexivity | reflexivity | reflexivity | vm_compute; discriminate].
Defined.

(** ** Notification reassembler *)





Lemma pop_all_nil (A : Type) (l : list A) : pop_all l = [].
Proof. induction l; simpl; auto. Qed.

Section ConsumeNotification.
Context {ext : Externals}.

Variable debug : bool.
Variable raw : list bytes.

Lemma consume_incomplete :
  has_final_raw_notification raw = false ->
  snd (fst (consume_notification debug raw)) = Raise IncompleteNotificationData
  /\ snd (consume_notification debug raw) = raw.
Proof.
  intros H. unfold consume_notification. rewrite H. simpl. auto.
Qed.

Lemma consume_parse_raises (e : exn) :
  has_final_raw_notification raw = true ->
  snd (parse (concat raw)) = Raise e ->
  snd (fst (consume_notification debug raw)) = Raise e
  /\ snd (consume_notification debug raw) = raw.
Proof.
  intros H Hp. unfold consume_notification. rewrite H. simpl.
  destruct (parse (concat raw)) as [printed r]. simpl in Hp. subst r.
  simpl. auto.
Qed.

Lemma consume_parsed (n : notification) :
  has_final_raw_notification raw = true ->
  snd (parse (concat raw)) = Ok n ->
  snd (fst (consume_notification debug raw)) = Ok n
  /\ snd (consume_notification debug raw) = [].
Proof.
  intros H Hp. unfold consume_notification. rewrite H. simpl.
  destruct (parse (concat raw)) as [printed r]. simpl in Hp. subst r.
  simpl. split; [reflexivity | apply pop_all_nil].
Qed.

Lemma consume_cases :
  match consume_notification debug raw with
  | (_, Raise e, raw') =>
      raw' = raw /\
      (has_final_raw_notification raw = false /\ e = IncompleteNotificationData
       \/ has_final_raw_notification raw = true
          /\ snd (parse (concat raw)) = Raise e)
  | (_, Ok n, raw') =>
      raw' = [] /\ has_final_raw_notification raw = true
      /\ snd (parse (concat raw)) = Ok n
  end.
Proof.
  unfold consume_notification.
  destruct (has_final_raw_notification raw); simpl.
  - destruct (parse (concat raw)) as [printed [n|e]]; simpl.
    + split; [apply pop_all_nil | auto].
    + split; [reflexivity | right; auto].
  - split; [reflexivity | left; auto].
Qed.

End ConsumeNotification.

(** ** Transaction engine *)

Section EngineFacts.
Context {ext : Externals}.

Lemma send_command_unfold (n : nat) (c : command) (wr : bool) :
  _send_command_at (S n) c wr =
    (encoded_command <- lift (encode c) ;;
     o <- get_obj ;;
     (if debug o
      then modify_world (print_stderr [SentDataLine encoded_command c])
      else ret tt) ;;;
     modify_obj (set_raw (reset_notification_data (_raw_notifications o))) ;;;
     connected <- _is_connected ;;
     (if negb connected then
        if truthy (deviceAddr o) && truthy (pin o)
        then _reconnect_with (authorize_with (_send_command_at n))
        else raise NotConnected
      else ret tt) ;;;
     transport_write encoded_command wr ;;;
     if wr then _wait_for_notifications else ret tt).
Proof. reflexivity. Qed.

(** Once the command is encoded, [_send_command] starts from an empty
    buffer whatever the buffer held. *)
Lemma send_command_resets (n : nat) (c : command) (wr : bool)
    (r : list bytes) (o : SEM6000) (w : World) (enc : bytes) :
  encode c = Ok enc ->
  _send_command_at (S n) c wr (set_raw r o, w) =
  _send_command_at (S n) c wr (set_raw [] o, w).
Proof.
  intros He. rewrite send_command_unfold.
  unfold bind at 1 2. unfold lift, get_obj. rewrite He. cbn [fst snd].
  unfold bind at 1 3.
  destruct o as [dbg addr ifc p raw per cc nc]. cbn [debug set_raw].
  destruct dbg; reflexivity.
Qed.

Lemma max_nesting_S : max_nesting = S 332.
Proof. reflexivity. Qed.

Lemma set_raw_same (o : SEM6000) : set_raw (_raw_notifications o) o = o.
Proof. now destruct o. Qed.

(** C10. A failed [consume_notification] raises and leaves the fragment
    buffer as it was, the failure being either an incomplete buffer or an
    exception of [parse] (frame unwrap or payload decode); a successful
    one returns what [parse] decoded and empties the buffer; and a send
    whose command encodes runs as from an empty buffer. *)
Theorem consume_failure_keeps_buffer (s : state) (c : command) (wr : bool)
    (enc : bytes) :
  encode c = Ok enc ->
  match _consume_notification s with
  | (Raise e, s') =>
      _raw_notifications (fst s') = _raw_notifications (fst s)
      /\ (has_final_raw_notification (_raw_notifications (fst s)) = false
          /\ e = IncompleteNotificationData
          \/ has_final_raw_notification (_raw_notifications (fst s)) = true
             /\ snd (parse (concat (_raw_notifications (fst s)))) = Raise e)
  | (Ok n, s') =>
      _raw_notifications (fst s') = []
      /\ has_final_raw_notification (_raw_notifications (fst s)) = true
      /\ snd (parse (concat (_raw_notifications (fst s)))) = Ok n
  end
  /\ _send_command c wr s = _send_command c wr (set_raw [] (fst s), snd s).
Proof.
  intros He. split.
  - unfold _consume_notification.
    pose proof (consume_cases (debug (fst s)) (_raw_notifications (fst s))) as H.
    destruct (consume_notification (debug (fst s)) (_raw_notifications (fst s)))
      as [[printed [n|e]] raw']; cbn [fst snd];
      destruct (fst s); exact H.
  - unfold _send_command. rewrite max_nesting_S.
    destruct s as [o w]. cbn [fst snd].
    rewrite <- (set_raw_same o) at 1.
    now apply send_command_resets with (enc := enc).
Qed.

(** *** Transactions over a link that is up *)

Lemma send_command_link_up (n : nat) (c : command) (o : SEM6000) (w : World)
    (encoded : bytes) (per : Peripheral) :
  _peripheral o = Some per ->
  link_up w (n_getState w) = true ->
  encode c = Ok encoded ->
  _send_command_at (S n) c true (o, w) =
    (Ok tt,
     (set_raw (snd (wait_loop (in_flight w ++ device w encoded) [])) o,
      set_in_flight (fst (wait_loop (in_flight w ++ device w encoded) []))
                    (world_after_send o w c encoded true))).
Proof.
  intros Hper Hup He. rewrite send_command_unfold.
  destruct o as [dbg addr ifc p raw per' cc nc]. cbn [_peripheral] in Hper.
  subst per'.
  unfold bind at 1 2. unfold lift, get_obj. rewrite He. cbn [fst snd].
  unfold world_after_send. cbn [debug].
  destruct w as [dev fl up ng cok nc' evs err]. cbn [link_up n_getState] in Hup.
  destruct dbg; run_engine; rewrite Hup; run_engine;
    destruct (wait_loop (fl ++ dev encoded) []) as [fl' raw'];
    reflexivity.
Qed.

Lemma bind_run (A B : Type) (m : M A) (k : A -> M B) (s s' : state) (a : A) :
  m s = (Ok a, s') -> bind m k s = k a s'.
Proof. intros H. unfold bind. now rewrite H. Qed.

Lemma bind_raise (A B : Type) (m : M A) (k : A -> M B) (s s' : state)
    (e : exn) :
  m s = (Raise e, s') -> bind m k s = (Raise e, s').
Proof. intros H. unfold bind. now rewrite H. Qed.

Lemma consume_run (o : SEM6000) (w : World) (printed : list stderr_line)
    (n : notification) :
  has_final_raw_notification (_raw_notifications o) = true ->
  parse (concat (_raw_notifications o)) = (printed, Ok n) ->
  _consume_notification (o, w) =
    (Ok n,
     (set_raw [] o,
      print_stderr
        (printed ++
           (if debug o
            then [ReceivedDataLine (concat (_raw_notifications o)) (Some n)]
            else []))
        w)).
Proof.
  intros Hf Hp. unfold _consume_notification, consume_notification.
  cbn [fst snd]. rewrite Hf, Hp. cbn [negb]. now rewrite pop_all_nil.
Qed.

Lemma transaction_link_up (m : nat) (c : command) (o : SEM6000) (w : World)
    (encoded : bytes) (per : Peripheral) (printed : list stderr_line)
    (n : notification) (B : Type) (k : notification -> M B) :
  _peripheral o = Some per ->
  link_up w (n_getState w) = true ->
  in_flight w = [] ->
  encode c = Ok encoded ->
  complete_reply (device w encoded) ->
  parse (concat (device w encoded)) = (printed, Ok n) ->
  (_send_command_at (S m) c true ;;; x <- _consume_notification ;; k x) (o, w) =
    k n (set_raw [] o, world_after_transaction o w c encoded printed n).
Proof.
  intros Hper Hup Hfl He [Hwait Hfinal] Hp.
  erewrite bind_run;
    [| eapply send_command_link_up; eassumption].
  rewrite Hfl. cbn [app]. rewrite Hwait. cbn [fst snd].
  erewrite bind_run; [reflexivity|].
  rewrite consume_run with (printed := printed) (n := n).
  - destruct o; reflexivity.
  - destruct o; exact Hfinal.
  - destruct o; exact Hp.
Qed.

(** *** Scheduler paging *)

Lemma further_pages_length (m : Z) :
  length (further_pages m) = Z.to_nat m.
Proof. unfold further_pages. now rewrite length_map, length_seq. Qed.

Lemma further_pages_nth (m : Z) (i : nat) :
  i < Z.to_nat m ->
  nth_error (further_pages m) i = Some (Z.of_nat (S i)).
Proof.
  intros Hi. unfold further_pages.
  rewrite nth_error_map, nth_error_seq.
  destruct (Nat.ltb_spec i (Z.to_nat m)); [reflexivity | lia].
Qed.

Section Paging.

Variable enc : Z -> bytes.
Variable declared : Z -> Z.
Variable entries : Z -> list SchedulerEntry.

Lemma for_each_pages (ps : list Z) :
  forall (o : SEM6000) (w : World) (per : Peripheral)
         (acc : list SchedulerEntry),
    _peripheral o = Some per ->
    in_flight w = [] ->
    (forall k, link_up w k = true) ->
    (forall p, In p ps ->
       page_served (device w) p (enc p) (declared p) (entries p)) ->
    exists w',
      for_each ps request_scheduler_page acc (set_raw [] o, w) =
        (Ok (acc ++ concat (map entries ps)), (set_raw [] o, w'))
      /\ events w' = events w ++ map (page_write enc) ps
      /\ in_flight w' = [] /\ device w' = device w /\ link_up w' = link_up w.
Proof.
  induction ps as [|p ps IH]; intros o w per acc Hper Hfl Hup Hserved.
  - exists w. cbn. rewrite !app_nil_r. auto.
  - destruct (Hserved p (or_introl eq_refl)) as (He & Hc & Hp).
    destruct (parse (concat (device w (enc p)))) as [printed r] eqn:Hparse.
    cbn [snd] in Hp. subst r.
    set (w1 := world_after_transaction (set_raw [] o) w
                 (RequestSchedulerCommand p) (enc p) printed
                 (SchedulerRequestedNotification (declared p) (entries p))).
    destruct (IH o w1 per (acc ++ entries p)) as (w' & Hrun & Hev & Hfl' & Hdev & Hup');
      try assumption.
    + reflexivity.
    + intros k. subst w1. destruct w, o. cbn. cbn in Hup.
      destruct debug0; apply Hup.
    + intros q Hq. replace (device w1) with (device w).
      * apply Hserved. now right.
      * subst w1. destruct w, o. cbn. now destruct debug0.
    + exists w'. split; [|split; [|split; [|split]]].
      * assert (Hstep :
          request_scheduler_page p acc (set_raw [] o, w) =
            (Ok (acc ++ entries p), (set_raw [] o, w1))).
        { assert (Hper' : _peripheral (set_raw [] o) = Some per)
            by (destruct o; exact Hper).
          unfold request_scheduler_page, _send_command.
          rewrite max_nesting_S.
          rewrite transaction_link_up
            with (encoded := enc p) (per := per) (printed := printed)
                 (n := SchedulerRequestedNotification (declared p) (entries p));
            [ subst w1; destruct o; reflexivity
            | first [ exact Hper' | apply Hup | assumption ] .. ]. }
        cbn [for_each]. erewrite bind_run; [| exact Hstep].
        rewrite Hrun. cbn [map concat]. now rewrite app_assoc.
      * rewrite Hev. subst w1. cbn [map]. destruct w, o. cbn.
        destruct debug0; cbn; now rewrite <- app_assoc.
      * exact Hfl'.
      * rewrite Hdev. subst w1. destruct w, o. cbn. now destruct debug0.
      * rewrite Hup'. subst w1. destruct w, o. cbn. now destruct debug0.
Qed.

End Paging.

Lemma floor_quarter_vs_ceil (n : Z) :
  ((n mod 4 <> 0 -> n / 4 = ceil_quarter n - 1)
   /\ (n mod 4 = 0 -> n / 4 = ceil_quarter n))%Z.
Proof.
  unfold ceil_quarter. split; intros H.
  - pose proof (Z.div_mod n 4 ltac:(lia)).
    pose proof (Z.mod_pos_bound n 4 ltac:(lia)).
    pose proof (Z.div_mod (- n) 4 ltac:(lia)).
    pose proof (Z.mod_pos_bound (- n) 4 ltac:(lia)).
    lia.
  - pose proof (Z.div_mod n 4 ltac:(lia)).
    pose proof (Z.div_mod (- n) 4 ltac:(lia)).
    pose proof (Z.mod_pos_bound (- n) 4 ltac:(lia)).
    lia.
Qed.

(** C1 in general, as the code has it.  Over a link that stays up, when the plug
    answers every requested page with a complete scheduler page and page 0
    declares [n] schedulers, [request_scheduler] writes the requests for
    pages [0, 1, ..., n // 4] in this order and nothing else, that is
    [n // 4] further requests after page 0, and returns the entries of
    these pages concatenated in request order under the count declared by
    page 0.  [n // 4] is [ceil(n/4) - 1] exactly when 4 does not divide
    [n], and [ceil(n/4)] when it does. *)
Theorem request_scheduler_fetches_pages (o : SEM6000) (w : World)
    (per : Peripheral) (enc : Z -> bytes) (declared : Z -> Z)
    (entries : Z -> list SchedulerEntry) :
  let n := declared 0%Z in
  let pages := 0%Z :: further_pages (n / 4) in
  _peripheral o = Some per ->
  in_flight w = [] ->
  (forall k, link_up w k = true) ->
  (forall p, In p pages ->
     page_served (device w) p (enc p) (declared p) (entries p)) ->
  exists o' w',
    request_scheduler (o, w) =
      (Ok (SchedulerRequestedNotification n (concat (map entries pages))),
       (o', w'))
    /\ events w' = events w ++ map (page_write enc) pages
    /\ length (further_pages (n / 4)) = Z.to_nat (n / 4)
    /\ (forall i, i < Z.to_nat (n / 4) ->
          nth_error (further_pages (n / 4)) i = Some (Z.of_nat (S i)))
    /\ ((n mod 4 <> 0 -> n / 4 = ceil_quarter n - 1)
        /\ (n mod 4 = 0 -> n / 4 = ceil_quarter n))%Z.
Proof.
  intros n pages Hper Hfl Hup Hserved.
  destruct (Hserved 0%Z (or_introl eq_refl)) as (He & Hc & Hp).
  destruct (parse (concat (device w (enc 0%Z)))) as [printed r] eqn:Hparse.
  cbn [snd] in Hp. subst r.
  set (w1 := world_after_transaction o w (RequestSchedulerCommand 0)
               (enc 0%Z) printed
               (SchedulerRequestedNotification n (entries 0%Z))).
  destruct (@for_each_pages enc declared entries (further_pages (n / 4))
              o w1 per (entries 0%Z))
    as (w' & Hrun & Hev & _ & _ & _).
  - exact Hper.
  - reflexivity.
  - intros k. subst w1. destruct w, o. cbn. cbn in Hup.
    destruct debug0; apply Hup.
  - intros q Hq. replace (device w1) with (device w).
    + apply Hserved. now right.
    + subst w1. destruct w, o. cbn. now destruct debug0.
  - exists (set_raw [] o), w'.
    split; [|split; [|split; [|split]]].
    + unfold request_scheduler, _send_command. rewrite max_nesting_S.
      rewrite transaction_link_up
        with (encoded := enc 0%Z) (per := per) (printed := printed)
             (n := SchedulerRequestedNotification n (entries 0%Z));
        [ | first [ exact Hper | apply Hup | assumption ] .. ].
      fold w1. erewrite bind_run; [reflexivity|].
      unfold request_scheduler_page, _send_command in Hrun.
      rewrite max_nesting_S in Hrun. exact Hrun.
    + rewrite Hev. subst w1 pages. cbn [map]. destruct w, o. cbn.
      destruct debug0; cbn; now rewrite <- app_assoc.
    + apply further_pages_length.
    + apply further_pages_nth.
    + apply floor_quarter_vs_ceil.
Qed.

End EngineFacts.

Lemma consume_failure_keeps_buffer_witness :
  (run_result (_consume_notification unfinished_state) =
     Raise IncompleteNotificationData
   /\ _raw_notifications (fst (snd (_consume_notification unfinished_state))) =
        unfinished_buffer)
  /\ (run_result (_consume_notification unparsable_state) =
        Raise (InvalidChecksum 4 5)
      /\ _raw_notifications
           (fst (snd (_consume_notification unparsable_state))) =
           unparsable_buffer)
  /\ _send_command (PowerSwitchCommand true) true unparsable_state =
       _send_command (PowerSwitchCommand true) true
         (sample_session None, sample_world (sample_plug x00) always_up)
  /\ _raw_notifications
       (fst (snd (_send_command (PowerSwitchCommand true) true
                    unparsable_state))) =
     [sample_frame [x03; x00; x00]].
Proof.
  destruct (@consume_failure_keeps_buffer sample_externals unfinished_state
              (PowerSwitchCommand true) true sample_power_on_frame eq_refl)
    as [Hkeep1 _].
  destruct (@consume_failure_keeps_buffer sample_externals unparsable_state
              (PowerSwitchCommand true) true sample_power_on_frame eq_refl)
    as [Hkeep2 Hreset].
  split; [|split; [|split]].
  - split; [reflexivity|].
    destruct (_consume_notification unfinished_state) as [[n|e] s'].
    + destruct Hkeep1 as (_ & Hfinal & _). discriminate Hfinal.
    + destruct Hkeep1 as (Hraw & _). exact Hraw.
  - split; [reflexivity|].
    destruct (_consume_notification unparsable_state) as [[n|e] s'].
    + destruct Hkeep2 as (_ & _ & Hparse). discriminate Hparse.
    + destruct Hkeep2 as (Hraw & _). exact Hraw.
  - exact Hreset.
  - rewrite Hreset. reflexivity.
Defined.

(** *** Concrete runs of [request_scheduler] *)

(** C1 at a failing input.  The plug declares 4 schedulers and page 0
    carries all four; [ceil(4/4) - 1] is 0, and the engine still requests
    page 1 after page 0 before it returns the four entries. *)
Theorem request_scheduler_four_declared :
  let run :=
    request_scheduler
      (sample_session None, sample_world four_schedulers_plug always_up) in
  (ceil_quarter 4 - 1 = 0)%Z
  /\ run_events run =
       [page_write sample_page_request 0; page_write sample_page_request 1]
  /\ exists es,
       run_result run = Ok (SchedulerRequestedNotification 4 es)
       /\ map slot_id es = [0; 1; 2; 3]%Z.
Proof.
  split; [reflexivity|]. split; [vm_compute; reflexivity|].
  eexists. split; vm_compute; reflexivity.
Qed.

Lemma request_scheduler_fetches_pages_witness :
  exists o' w',
    request_scheduler
      (sample_session None, sample_world (sample_plug x0a) always_up) =
      (Ok (SchedulerRequestedNotification 10
             (sample_entries 0 ++ sample_entries 1 ++ sample_entries 2 ++ [])),
       (o', w'))
    /\ events w' =
         [page_write sample_page_request 0; page_write sample_page_request 1;
          page_write sample_page_request 2].
Proof.
  destruct (@request_scheduler_fetches_pages sample_externals
              (sample_session None) (sample_world (sample_plug x0a) always_up)
              btle_Peripheral sample_page_request (fun _ => 10%Z)
              sample_entries)
    as (o' & w' & Hrun & Hev & _).
  - reflexivity.
  - reflexivity.
  - reflexivity.
  - intros p [<-|[<-|[<-|[]]]]; repeat split; vm_compute; reflexivity.
  - exists o', w'. split; [exact Hrun | exact Hev].
Defined.

(** *** Authorization *)

Section Authorization.
Context {ext : Externals}.

(** What [authorize] does with the outcome of its transaction. *)
Lemma authorize_with_cases (send : command -> bool -> M unit) (p : string)
    (s : state) :
  match (send (AuthorizeCommand p) true ;;; _consume_notification) s with
  | (Ok (AuthorizationNotification true), s1) =>
      authorize_with send p s =
        (Ok (AuthorizationNotification true),
         (set_pin (Some p) (fst s1), snd s1))
  | (Ok (AuthorizationNotification false), s1) =>
      authorize_with send p s =
        (Raise AuthenticationFailed, (set_pin None (fst s1), snd s1))
  | (Ok _, s1) => authorize_with send p s = (Raise AuthenticationFailed, s1)
  | (Raise e, s1) => authorize_with send p s = (Raise e, s1)
  end.
Proof.
  unfold authorize_with, bind.
  destruct (send (AuthorizeCommand p) true s) as [[[]|e] s0]; [|reflexivity].
  destruct (_consume_notification s0) as [[n|e] s1]; [|reflexivity].
  destruct n; try reflexivity; destruct was_successful; reflexivity.
Qed.


(** A refusal forgets the PIN; a reply of another kind raises the same
    exception with the PIN untouched. *)
Lemma authorize_refused (m : nat) (o : SEM6000) (w : World) (p : string)
    (encoded : bytes) (per : Peripheral) (printed : list stderr_line) :
  _peripheral o = Some per ->
  link_up w (n_getState w) = true ->
  in_flight w = [] ->
  encode (AuthorizeCommand p) = Ok encoded ->
  complete_reply (device w encoded) ->
  parse (concat (device w encoded)) =
    (printed, Ok (AuthorizationNotification false)) ->
  authorize_with (_send_command_at (S m)) p (o, w) =
    (Raise AuthenticationFailed,
     (set_pin None (set_raw [] o),
      world_after_transaction o w (AuthorizeCommand p) encoded printed
        (AuthorizationNotification false))).
Proof.
  intros Hper Hup Hfl He Hc Hp. unfold authorize_with.
  rewrite transaction_link_up
    with (encoded := encoded) (per := per) (printed := printed)
         (n := AuthorizationNotification false);
    [ reflexivity | assumption .. ].
Qed.

Lemma authorize_wrong_kind (m : nat) (o : SEM6000) (w : World) (p : string)
    (encoded : bytes) (per : Peripheral) (printed : list stderr_line)
    (n : notification) :
  _peripheral o = Some per ->
  link_up w (n_getState w) = true ->
  in_flight w = [] ->
  encode (AuthorizeCommand p) = Ok encoded ->
  complete_reply (device w encoded) ->
  parse (concat (device w encoded)) = (printed, Ok n) ->
  (forall was_successful, n <> AuthorizationNotification was_successful) ->
  authorize_with (_send_command_at (S m)) p (o, w) =
    (Raise AuthenticationFailed,
     (set_raw [] o,
      world_after_transaction o w (AuthorizeCommand p) encoded printed n))
  /\ pin (set_raw [] o) = pin o.
Proof.
  intros Hper Hup Hfl He Hc Hp Hkind. split; [|now destruct o].
  unfold authorize_with.
  rewrite transaction_link_up
    with (encoded := encoded) (per := per) (printed := printed) (n := n);
    [ | assumption .. ].
  destruct n; try reflexivity. now elim (Hkind was_successful).
Qed.

End Authorization.

(** *** Reconnect on send *)

Section Reconnect.
Context {ext : Externals}.


(** A connect that fails ends the send: the exception propagates, the
    broken peripheral is dropped, and nothing is written. *)
Lemma send_reconnect_fails (o : SEM6000) (w : World) (c : command)
    (p a : string) (ec : bytes) :
  pin o = Some p -> truthy (Some p) = true ->
  deviceAddr o = Some a -> truthy (Some a) = true ->
  encode c = Ok ec ->
  found_connected o w = false ->
  connect_ok w (n_connect w) = false ->
  exists o' w',
    _send_command c true (o, w) = (Raise BTLEException, (o', w'))
    /\ events w' =
         events w ++ disconnect_events o ++
         [EvConnect (Some a) (iface o) false; EvDisconnect]
    /\ _peripheral o' = None.
Proof.
  intros Hpin Htp Haddr Hta Hec Hdown Hcok.
  unfold _send_command. rewrite max_nesting_S, send_command_unfold.
  destruct o as [dbg addr ifc pn raw per cc nc].
  destruct w as [dev fl up ng cok ncn evs err].
  unfold found_connected, disconnect_events in *.
  cbn [pin deviceAddr connect_ok n_connect _peripheral link_up n_getState
       events iface] in *.
  subst pn addr.
  destruct dbg, per as [per|];
    run_engine; rewrite Hec; run_engine; rewrite ?Hdown; run_engine;
    rewrite Hta, Htp; cbn [andb]; unfold _reconnect_with; run_engine;
    rewrite Hcok; run_engine;
    do 2 eexists; (split; [reflexivity|]);
    (split; [ cbn [app]; rewrite <- ?app_assoc; reflexivity | reflexivity ]).
Qed.

End Reconnect.



(** C7 at a failing input.  With PIN 1234 remembered, [authorize("0000")]
    answered by a power-switch notification raises [AuthenticationFailed]
    and leaves 1234 remembered; answered by a refusal it raises the same
    exception and forgets the PIN; answered by an acceptance it remembers
    0000. *)
Theorem authorize_wrong_kind_keeps_pin :
  let remembered := sample_session (Some sample_pin) in
  let outcome plug := authorize other_pin (remembered, sample_world plug always_up) in
  run_result (outcome wrong_kind_plug) = Raise AuthenticationFailed
  /\ pin (fst (snd (outcome wrong_kind_plug))) = Some sample_pin
  /\ run_result (outcome refusing_plug) = Raise AuthenticationFailed
  /\ pin (fst (snd (outcome refusing_plug))) = None
  /\ run_result (outcome (sample_plug x00)) = Ok (AuthorizationNotification true)
  /\ pin (fst (snd (outcome (sample_plug x00)))) = Some other_pin.
Proof. repeat split; vm_compute; reflexivity. Qed.

(** ** Payload decoder *)

Lemma fold_left_cons_rev (A B : Type) (f : A -> B) (l : list A) (acc : list B) :
  fold_left (fun acc i => f i :: acc) l acc = rev (map f l) ++ acc.
Proof.
  revert acc; induction l as [|x l IH]; intros acc; cbn [fold_left map rev].
  - reflexivity.
  - rewrite IH, <- app_assoc. reflexivity.
Qed.

Lemma from_bytes_big_3 (a b c : byte) :
  from_bytes_big [a; b; c] =
    (byte_val a * 65536 + byte_val b * 256 + byte_val c)%Z.
Proof. unfold from_bytes_big. cbn [fold_left]. lia. Qed.

Section Decoder.
Context {ext : Externals}.

Lemma consumption_loop_rev (width taken : nat) (payload : bytes) :
  consumption_loop width taken payload =
    rev (map (fun i => Some (from_bytes_big
                               (slice (2 + width * i) (2 + width * i + taken)
                                      payload)))
             (seq 0 ((length payload - 2) / width))).
Proof.
  unfold consumption_loop. rewrite fold_left_cons_rev. apply app_nil_r.
Qed.

Lemma consumption_loop_no_None (width taken : nat) (payload : bytes) :
  ~ In None (consumption_loop width taken payload).
Proof.
  rewrite consumption_loop_rev, <- in_rev, in_map_iff.
  intros (i & Hi & _). discriminate Hi.
Qed.

Lemma consumption_loop_nth (width taken : nat) (payload : bytes) (k : nat) :
  let count := (length payload - 2) / width in
  k < count ->
  nth_error (consumption_loop width taken payload) k =
    Some (Some (from_bytes_big
                  (slice (2 + width * (count - 1 - k))
                         (2 + width * (count - 1 - k) + taken) payload))).
Proof.
  intros count Hk. rewrite consumption_loop_rev. fold count.
  rewrite nth_error_rev, length_map, length_seq.
  destruct (Nat.ltb_spec k count) as [_|]; [|lia].
  rewrite nth_error_map, nth_error_seq.
  destruct (Nat.ltb_spec (count - S k) count) as [_|]; [|lia].
  replace (0 + (count - S k)) with (count - 1 - k) by lia. reflexivity.
Qed.

Lemma consumption_loop_length (width taken : nat) (payload : bytes) :
  length (consumption_loop width taken payload) = (length payload - 2) / width.
Proof.
  rewrite consumption_loop_rev. now rewrite length_rev, length_map, length_seq.
Qed.

Lemma parse_notification_12_months_inv (payload : bytes) (l : list (option Z)) :
  snd (parse_notification payload) =
    Ok (ConsumptionOfLast12MonthsRequestedNotification l) ->
  l = None :: consumption_loop 4 3 payload.
Proof.
  unfold parse_notification. walk_dispatch absurd_or_same.
  intros H. discriminate H.
Qed.

Lemma parse_notification_30_days_inv (payload : bytes) (l : list (option Z)) :
  snd (parse_notification payload) =
    Ok (ConsumptionOfLast30DaysRequestedNotification l) ->
  l = None :: consumption_loop 4 3 payload.
Proof.
  unfold parse_notification. walk_dispatch absurd_or_same.
  intros H. discriminate H.
Qed.

Lemma parse_notification_23_hours_inv (payload : bytes) (l : list (option Z)) :
  snd (parse_notification payload) =
    Ok (ConsumptionOfLast23HoursRequestedNotification l) ->
  l = consumption_loop 2 2 payload.
Proof.
  unfold parse_notification. walk_dispatch absurd_or_same.
  intros H. discriminate H.
Qed.

Lemma parse_inv (data : bytes) (n : notification) :
  snd (parse data) = Ok n ->
  exists payload,
    _parse_payload data = Ok payload /\ snd (parse_notification payload) = Ok n.
Proof.
  unfold parse. destruct (_parse_payload data) as [payload|e]; cbn [snd].
  - intros H. now exists payload.
  - discriminate.
Qed.

(** C2, as the code has it.  Index 0 of a decoded 12-months or 30-days
    series is [None].  A decoded 23-hours series holds no [None]: it has
    one element for each whole 2-byte entry of the payload, in reverse
    transmission order, so its index 0, when there is one, is the last
    transmitted reading. *)
Theorem consumption_series_head (data : bytes) (l : list (option Z)) :
  (snd (parse data) = Ok (ConsumptionOfLast12MonthsRequestedNotification l)
   \/ snd (parse data) = Ok (ConsumptionOfLast30DaysRequestedNotification l) ->
   nth_error l 0 = Some None)
  /\ (snd (parse data) = Ok (ConsumptionOfLast23HoursRequestedNotification l) ->
      ~ In None l /\ nth_error l 0 <> Some None
      /\ exists payload,
           _parse_payload data = Ok payload
           /\ length l = (length payload - 2) / 2
           /\ (0 < length l ->
               nth_error l 0 =
                 Some (Some (from_bytes_big
                               (transmitted_reading payload (length l - 1)))))
           /\ forall k, k < length l ->
                nth_error l k =
                  Some (Some (from_bytes_big
                                (transmitted_reading payload
                                   (length l - 1 - k))))).
Proof.
  split.
  - intros [H|H]; apply parse_inv in H as (payload & _ & H).
    + apply parse_notification_12_months_inv in H. now subst l.
    + apply parse_notification_30_days_inv in H. now subst l.
  - intros H. apply parse_inv in H as (payload & Hdata & H).
    apply parse_notification_23_hours_inv in H. subst l.
    pose proof (consumption_loop_no_None 2 2 payload) as Hno.
    split; [exact Hno|].
    split; [intros Hhead; apply Hno; eapply nth_error_In; exact Hhead|].
    exists payload. split; [exact Hdata|].
    rewrite consumption_loop_length.
    assert (Hall : forall k, k < (length payload - 2) / 2 ->
              nth_error (consumption_loop 2 2 payload) k =
                Some (Some (from_bytes_big
                              (transmitted_reading payload
                                 ((length payload - 2) / 2 - 1 - k)))))
      by (intros k Hk; now rewrite consumption_loop_nth).
    split; [reflexivity|]. split; [|exact Hall].
    intros Hpos. rewrite (Hall 0 Hpos). now rewrite Nat.sub_0_r.
Qed.

End Decoder.

Lemma consumption_series_head_witness :
  nth_error [None; Some 5%Z] 0 = Some None
  /\ exists payload,
       _parse_payload sample_23_hours = Ok payload
       /\ nth_error [Some 258%Z; Some 7%Z] 0 =
            Some (Some (from_bytes_big (transmitted_reading payload 1))).
Proof.
  split.
  - apply (proj1 (@consumption_series_head sample_externals
                    (sample_frame [x0c; x00; x00; x00; x05; x00])
                    [None; Some 5%Z])).
    left. reflexivity.
  - destruct (proj2 (@consumption_series_head sample_externals
                       sample_23_hours [Some 258%Z; Some 7%Z]) eq_refl)
      as (_ & _ & payload & Hdata & _ & Hhead & _).
    exists payload. split; [exact Hdata|].
    apply Hhead. cbn [length]. lia.
Defined.

(** C2, as stated, fails for the 23-hours reply: index 0 of its decoded
    series is the last transmitted reading. *)
Lemma last_23_hours_head_is_a_reading :
  exists l,
    snd (parse (sample_frame [x0a; x00; x00; x07; x01; x02])) =
      Ok (ConsumptionOfLast23HoursRequestedNotification l)
    /\ nth_error l 0 = Some (Some 258%Z).
Proof. eexists. split; vm_compute; reflexivity. Qed.

Section TwelveMonths.
Context {ext : Externals}.

Lemma prefix_cons (payload : bytes) (a b : byte) :
  slice 0 2 payload = [a; b] -> exists rest, payload = a :: b :: rest.
Proof.
  destruct payload as [|x [|y rest]]; cbn; try discriminate.
  intros [= -> ->]. now exists rest.
Qed.

Lemma transmitted_entry_value (payload : bytes) (i : nat) :
  firstn 3 (transmitted_entry payload i) =
    slice (2 + 4 * i) (2 + 4 * i + 3) payload.
Proof.
  unfold transmitted_entry, slice. rewrite firstn_firstn.
  f_equal. lia.
Qed.

(** C5. A 12-months payload of [2 + 4*11] bytes decodes to 12 elements:
    element 0 is [None] and element [k], for [k] from 1 to 11, is the
    big-endian value of the first three bytes of the transmitted entry
    [11 - k]. *)
Theorem decode_12_months (data payload : bytes) :
  _parse_payload data = Ok payload ->
  slice 0 2 payload = [x0c; x00] ->
  length payload = 2 + 4 * 11 ->
  exists l,
    parse data = ([], Ok (ConsumptionOfLast12MonthsRequestedNotification l))
    /\ length l = 12
    /\ nth_error l 0 = Some None
    /\ forall k, 1 <= k <= 11 ->
         nth_error l k =
           Some (Some (from_bytes_big
                         (firstn 3 (transmitted_entry payload (11 - k))))).
Proof.
  intros Hdata Hprefix Hlen.
  destruct (prefix_cons _ Hprefix) as (rest & ->).
  exists (None :: consumption_loop 4 3 (x0c :: x00 :: rest)).
  split; [unfold parse; rewrite Hdata; reflexivity|].
  rewrite consumption_loop_rev, Hlen.
  change ((2 + 4 * 11 - 2) / 4) with 11.
  split; [reflexivity|]. split; [reflexivity|].
  intros k Hk. rewrite transmitted_entry_value.
  do 12 (destruct k as [|k]; [first [lia | reflexivity]|]).
  lia.
Qed.

End TwelveMonths.

Lemma decode_12_months_witness :
  exists l,
    parse sample_12_months =
      ([], Ok (ConsumptionOfLast12MonthsRequestedNotification l))
    /\ length l = 12
    /\ nth_error l 0 = Some None
    /\ nth_error l 1 = Some (Some 256%Z)
    /\ nth_error l 11 = Some (Some 1%Z).
Proof.
  destruct (@decode_12_months sample_externals sample_12_months
              (slice 2 48 sample_12_months))
    as (l & Hparse & Hlen & Hhead & Hrest);
    [reflexivity | reflexivity | reflexivity |].
  exists l. repeat split; try assumption.
  - rewrite (Hrest 1) by lia. reflexivity.
  - rewrite (Hrest 11) by lia. reflexivity.
Defined.

Section SchedulerPage.
Context {ext : Externals}.

Variable payload : bytes.

Lemma scheduler_page_loop (l : list nat) :
  forall (es : list SchedulerEntry) (err : list stderr_line),
    fold_left (scheduler_page_step payload) l (es, err) =
      (es ++ map (entry_at payload) l,
       err ++ map (mismatch_report payload) (filter (entry_mismatch payload) l)).
Proof.
  induction l as [|i l IH]; intros es err.
  - cbn. now rewrite !app_nil_r.
  - cbn [fold_left]. unfold scheduler_page_step at 2.
    rewrite land_255_mod.
    fold (entry_slot payload i) (entry_checksum payload i)
         (entry_checksum_received payload i).
    rewrite IH. cbn [map filter]. unfold entry_mismatch at 2.
    fold (entry_at payload i).
    destruct (negb (entry_checksum_received payload i
                    =? entry_checksum payload i)%Z).
    + cbn [map]. now rewrite <- !app_assoc.
    + now rewrite <- app_assoc.
Qed.

(** C8. A scheduler page of [k] entries decodes to all [k] entries, each
    from its own bytes whatever its checksum byte is, and the decoder
    prints one line for each entry whose checksum byte differs from
    [(sum(bytes[4:14]) + 0x14) mod 256], in order, and nothing else. *)
Theorem scheduler_checksum_is_not_fatal (data : bytes) (k : nat) :
  _parse_payload data = Ok payload ->
  slice 0 2 payload = [x14; x00] ->
  length payload = 3 + 12 * k ->
  parse data =
    (map (mismatch_report payload) (filter (entry_mismatch payload) (seq 0 k)),
     Ok (SchedulerRequestedNotification
           (from_bytes_big (slice 2 3 payload))
           (map (entry_at payload) (seq 0 k)))).
Proof.
  intros Hdata Hprefix Hlen. unfold parse. rewrite Hdata.
  destruct (prefix_cons _ Hprefix) as (rest & Hp).
  replace (parse_notification payload) with (parse_scheduler_page payload)
    by (rewrite Hp; reflexivity).
  unfold parse_scheduler_page. rewrite Hlen.
  replace (3 + 12 * k - 3) with (k * 12) by lia.
  rewrite Nat.Div0.mod_mul, Nat.div_mul by lia.
  destruct (Nat.ltb_spec (3 + 12 * k) 3) as [|_]; [lia|].
  cbn [Nat.eqb negb]. rewrite scheduler_page_loop. reflexivity.
Qed.

End SchedulerPage.

Lemma scheduler_checksum_is_not_fatal_witness :
  exists first_entry second_entry,
    parse sample_scheduler_page =
      ([InvalidSchedulerChecksumLine 1 106 0],
       Ok (SchedulerRequestedNotification 2 [first_entry; second_entry]))
    /\ slot_id first_entry = 0%Z /\ slot_id second_entry = 1%Z.
Proof.
  pose proof (@scheduler_checksum_is_not_fatal sample_externals
                (slice 2 29 sample_scheduler_page) sample_scheduler_page 2
                eq_refl eq_refl eq_refl) as H.
  do 2 eexists. split; [exact H|]. split; reflexivity.
Defined.

(** ** [edit_scheduler] *)

Section EditScheduler.
Context {ext : Externals}.

(** C9. Every call of [edit_scheduler] raises while the command is being
    built and leaves the session and the transport as they were: nothing
    is written, no fragment is consumed, and no notification is returned.
    When the argument conversions evaluated first succeed, the exception is
    the [NameError] for [tuil]. *)
Theorem edit_scheduler_always_raises
    (slot_id is_active is_action_turn_on repeat_on_weekdays isodatetime : PyVal)
    (s : state) :
  exists e,
    edit_scheduler slot_id is_active is_action_turn_on repeat_on_weekdays
                   isodatetime s = (Raise e, s)
    /\ (forall d d' z a b,
          fromisoformat isodatetime = Ok d ->
          datetime_new (dt_year d mod 100) (dt_month d) (dt_day d)
                       (dt_hour d) (dt_minute d) = Ok d' ->
          py_int slot_id = Ok z ->
          _parse_boolean is_active = Ok a ->
          _parse_boolean is_action_turn_on = Ok b ->
          e = NameError "tuil").
Proof.
  unfold edit_scheduler, bind, lift, raise.
  destruct (fromisoformat isodatetime) as [d|e1] eqn:E1;
    [|exists e1; split; [reflexivity | intros; congruence]].
  destruct (datetime_new (dt_year d mod 100) (dt_month d) (dt_day d)
                         (dt_hour d) (dt_minute d)) as [d'|e2] eqn:E2;
    [|exists e2; split; [reflexivity | intros; congruence]].
  destruct (py_int slot_id) as [z|e3] eqn:E3;
    [|exists e3; split; [reflexivity | intros; congruence]].
  destruct (_parse_boolean is_active) as [a|e4] eqn:E4;
    [|exists e4; split; [reflexivity | intros; congruence]].
  destruct (_parse_boolean is_action_turn_on) as [b|e5] eqn:E5;
    [|exists e5; split; [reflexivity | intros; congruence]].
  exists (NameError "tuil"). split; reflexivity.
Qed.

End EditScheduler.

(** * Further properties *)

(** ** Frame codec *)

Lemma byte_val_range (b : byte) : (0 <= byte_val b < 256)%Z.
Proof.
  unfold byte_val. pose proof (Byte.to_N_bounded b). lia.
Qed.

Lemma parse_payload_framed (lb : byte) (payload : bytes) (cb : byte)
    (suffix : bytes) :
  frame_fields_ok lb payload cb ->
  _parse_payload (framed lb payload cb suffix) =
    match suffix with
    | [] => Ok payload
    | _ :: _ =>
        if bytes_eqb suffix [xff; xff] then Ok payload
        else Raise (InvalidSuffix suffix)
    end.
Proof.
  intros [Hl Hc]. unfold _parse_payload, framed.
  change (slice 0 1 (x0f :: lb :: payload ++ cb :: suffix)) with [x0f].
  change (bytes_eqb [x0f] [x0f]) with true. cbn [negb nth_error].
  cbv zeta.
  replace (Z.to_nat (byte_val lb)) with (S (length payload)) by lia.
  replace (2 + S (length payload) - 1) with (S (S (length payload))) by lia.
  cbn [nth_error].
  rewrite nth_error_app2, Nat.sub_diag by lia. cbn [nth_error].
  assert (Hs : slice 2 (S (S (length payload)))
                 (x0f :: lb :: payload ++ cb :: suffix) = payload).
  { unfold slice. cbn [skipn].
    replace (S (S (length payload)) - 2) with (length payload + 0) by lia.
    rewrite firstn_app_2. cbn. apply app_nil_r. }
  rewrite Hs, frame_checksum_mod, Hc, Z.eqb_refl. cbn [negb].
  assert (Hk : skipn (2 + S (length payload))
                 (x0f :: lb :: payload ++ cb :: suffix) = suffix).
  { change (skipn (2 + S (length payload))
              (x0f :: lb :: payload ++ cb :: suffix))
      with (skipn (S (length payload)) (payload ++ cb :: suffix)).
    rewrite skipn_app, skipn_all2 by lia.
    replace (S (length payload) - length payload) with 1 by lia.
    reflexivity. }
  rewrite Hk.
  assert (Hlen : length (x0f :: lb :: payload ++ cb :: suffix) =
                 2 + S (length payload) + length suffix).
  { cbn [length]. rewrite length_app. cbn [length]. lia. }
  rewrite Hlen.
  destruct suffix as [|b suffix].
  - destruct (Nat.ltb_spec (2 + S (length payload))
                (2 + S (length payload) + length (@nil byte)));
      [cbn [length] in *; lia | reflexivity].
  - destruct (Nat.ltb_spec (2 + S (length payload))
                (2 + S (length payload) + length (b :: suffix)));
      [|cbn [length] in *; lia].
    destruct (bytes_eqb (b :: suffix) [xff; xff]); reflexivity.
Qed.

(** X1. A frame made of the header [0F], a length byte one above the
    payload length, the payload, its checksum and either nothing or the
    terminator [FF FF] unwraps to that payload. *)
Theorem unwrap_accepts_well_formed (lb : byte) (payload : bytes) (cb : byte)
    (suffix : bytes) :
  frame_fields_ok lb payload cb ->
  suffix = [] \/ suffix = [xff; xff] ->
  _parse_payload (framed lb payload cb suffix) = Ok payload.
Proof.
  intros Hok Hs. rewrite parse_payload_framed by exact Hok.
  destruct Hs as [-> | ->]; reflexivity.
Qed.

(** X2. With header, length and checksum in order, any bytes behind the
    checksum other than exactly [FF FF] make unwrap raise the suffix
    exception carrying those bytes. *)
Theorem unwrap_rejects_other_suffix (lb : byte) (payload : bytes) (cb : byte)
    (suffix : bytes) :
  frame_fields_ok lb payload cb ->
  suffix <> [] -> suffix <> [xff; xff] ->
  _parse_payload (framed lb payload cb suffix) = Raise (InvalidSuffix suffix).
Proof.
  intros Hok Hne Hff. rewrite parse_payload_framed by exact Hok.
  destruct suffix as [|b suffix]; [congruence|].
  apply bytes_eqb_neq in Hff. now rewrite Hff.
Qed.

(** X3. Whatever unwrap returns was framed: the input is header, length
    byte, the returned payload, its checksum and an empty or [FF FF]
    suffix; the length byte is the payload length plus one, so a length
    byte of zero is never accepted and a payload has at most 254 bytes. *)
Theorem unwrap_sound (data payload : bytes) :
  _parse_payload data = Ok payload ->
  exists lb cb suffix,
    data = framed lb payload cb suffix
    /\ frame_fields_ok lb payload cb
    /\ (suffix = [] \/ suffix = [xff; xff])
    /\ length payload <= 254.
Proof.
  unfold _parse_payload.
  destruct (bytes_eqb (slice 0 1 data) [x0f]) eqn:Hh; [|discriminate].
  cbn [negb]. apply bytes_eqb_eq in Hh.
  destruct data as [|h [|lb rest]]; try discriminate.
  injection Hh as ->. cbn [nth_error]. cbv zeta.
  pose proof (byte_val_range lb) as Hlb.
  destruct (Z.to_nat (byte_val lb)) as [|L] eqn:HL.
  - (* a length byte of zero names itself as checksum byte *)
    cbn [Nat.add Nat.sub nth_error].
    unfold slice. cbn [Nat.sub firstn].
    change (frame_checksum []) with 1%Z.
    destruct (Z.eqb_spec (byte_val lb) 1); [lia | discriminate].
  - replace (2 + S L - 1) with (S (S L)) by lia. cbn [nth_error].
    destruct (nth_error rest L) as [cb|] eqn:Hcb; [|discriminate].
    destruct (nth_error_split rest L Hcb) as (pl & suffix & -> & HplL).
    assert (Hs : slice 2 (S (S L)) (x0f :: lb :: pl ++ cb :: suffix) = pl).
    { unfold slice. cbn [skipn].
      replace (S (S L) - 2) with (length pl + 0) by lia.
      rewrite firstn_app_2. cbn. apply app_nil_r. }
    rewrite Hs, frame_checksum_mod.
    destruct (Z.eqb_spec (byte_val cb) ((1 + sum_bytes pl) mod 256)) as [Hc|];
      [|discriminate].
    cbn [negb].
    assert (Hk : skipn (2 + S L) (x0f :: lb :: pl ++ cb :: suffix) = suffix).
    { change (skipn (2 + S L) (x0f :: lb :: pl ++ cb :: suffix))
        with (skipn (S L) (pl ++ cb :: suffix)).
      rewrite skipn_app, skipn_all2 by lia.
      replace (S L - length pl) with 1 by lia. reflexivity. }
    rewrite Hk.
    assert (Hok : frame_fields_ok lb pl cb) by (split; [lia | exact Hc]).
    destruct (2 + S L <? length (x0f :: lb :: pl ++ cb :: suffix)) eqn:Hlt.
    + destruct (bytes_eqb suffix [xff; xff]) eqn:Hsfx; cbn [negb];
        [|discriminate].
      intros [= <-]. apply bytes_eqb_eq in Hsfx.
      exists lb, cb, suffix. repeat split; try apply Hok; auto. lia.
    + intros [= <-]. apply Nat.ltb_ge in Hlt.
      cbn [length] in Hlt. rewrite length_app in Hlt. cbn [length] in Hlt.
      destruct suffix; [|cbn [length] in Hlt; lia].
      exists lb, cb, []. repeat split; try apply Hok; auto. lia.
Qed.

(** X4. A frame that starts with the header but ends before the checksum
    byte that its length byte announces raises [IndexError]: truncation is
    not reported as a protocol exception. *)
Theorem unwrap_truncated (tail : bytes) :
  tail = []
  \/ (exists lb rest,
        tail = lb :: rest /\ length rest < Z.to_nat (byte_val lb)) ->
  _parse_payload (x0f :: tail) = Raise IndexError.
Proof.
  intros [-> | (lb & rest & -> & Hshort)]; [reflexivity|].
  unfold _parse_payload.
  change (slice 0 1 (x0f :: lb :: rest)) with [x0f].
  change (bytes_eqb [x0f] [x0f]) with true. cbn [negb nth_error]. cbv zeta.
  destruct (Z.to_nat (byte_val lb)) as [|L]; [lia|].
  replace (2 + S L - 1) with (S (S L)) by lia. cbn [nth_error].
  assert (Hnone : nth_error rest L = None) by (apply nth_error_None; lia).
  now rewrite Hnone.
Qed.

(** ** Weekday masks and scheduler fields *)

Lemma fold_left_append_if (A : Type) (p : A -> bool) (l : list A) :
  forall acc,
    fold_left (fun acc w => if p w then acc ++ [w] else acc) l acc =
      acc ++ filter p l.
Proof.
  induction l as [|x l IH]; intros acc; cbn [fold_left filter].
  - now rewrite app_nil_r.
  - rewrite IH. destruct (p x); [now rewrite <- app_assoc | reflexivity].
Qed.

Lemma land_pow2_eqb (m : Z) (n : nat) :
  (Z.land m (2 ^ Z.of_nat n) =? 0)%Z = negb (Z.testbit m (Z.of_nat n)).
Proof.
  destruct (Z.testbit m (Z.of_nat n)) eqn:Hb; cbn [negb].
  - apply Z.eqb_neq. intros H0.
    assert (Ht : Z.testbit (Z.land m (2 ^ Z.of_nat n)) (Z.of_nat n) = true).
    { rewrite Z.land_spec, Hb, Z.pow2_bits_true by lia. reflexivity. }
    rewrite H0, Z.bits_0 in Ht. discriminate.
  - apply Z.eqb_eq. apply Z.bits_inj'. intros k Hk.
    rewrite Z.land_spec, Z.bits_0, Z.pow2_bits_eqb by lia.
    destruct (Z.eqb_spec (Z.of_nat n) k) as [<-|_].
    + now rewrite Hb.
    + apply andb_false_r.
Qed.

Lemma weekdays_of_mask_filter (mask : Z) :
  weekdays_of_mask mask =
    filter (fun w => Z.testbit mask (Z.of_nat w)) (seq 0 7).
Proof.
  unfold weekdays_of_mask. rewrite fold_left_append_if. cbn [app].
  apply filter_ext. intros w. now rewrite land_pow2_eqb, negb_involutive.
Qed.

Lemma StronglySorted_filter (A : Type) (R : A -> A -> Prop) (p : A -> bool)
    (l : list A) :
  StronglySorted R l -> StronglySorted R (filter p l).
Proof.
  induction 1 as [|x l Hs IH Hx]; cbn [filter]; [constructor|].
  destruct (p x); [|exact IH].
  constructor; [exact IH|].
  rewrite Forall_forall in *. intros y Hy. apply Hx.
  now apply filter_In in Hy.
Qed.

Lemma StronglySorted_seq (start len : nat) :
  StronglySorted lt (seq start len).
Proof.
  revert start; induction len as [|len IH]; intros start; cbn [seq];
    constructor; [apply IH|].
  rewrite Forall_forall. intros y Hy. apply in_seq in Hy. lia.
Qed.

Lemma weekdays_of_mask_In (mask : Z) (w : nat) :
  In w (weekdays_of_mask mask) <->
  w < 7 /\ Z.testbit mask (Z.of_nat w) = true.
Proof.
  rewrite weekdays_of_mask_filter, filter_In, in_seq. intuition lia.
Qed.

(** X5. The weekdays decoded from a mask are exactly the indices below 7
    whose bit is set in the mask, listed once each in ascending order. *)
Theorem weekdays_of_mask_spec (mask : Z) :
  (forall w, In w (weekdays_of_mask mask) <->
             w < 7 /\ Z.testbit mask (Z.of_nat w) = true)
  /\ StronglySorted lt (weekdays_of_mask mask).
Proof.
  split.
  - apply weekdays_of_mask_In.
  - rewrite weekdays_of_mask_filter.
    apply StronglySorted_filter, StronglySorted_seq.
Qed.

(** X6. Two masks decode to the same weekdays exactly when they agree on
    their seven low bits: bit 7 and above are ignored, and the seven low
    bits can be read back from the decoded list. *)
Theorem weekdays_of_mask_low_bits (m1 m2 : Z) :
  weekdays_of_mask m1 = weekdays_of_mask m2 <->
  (m1 mod 128 = m2 mod 128)%Z.
Proof.
  change 128%Z with (2 ^ 7)%Z. split.
  - intros H. apply Z.bits_inj'. intros k Hk.
    destruct (Z.lt_ge_cases k 7) as [Hlt|Hge].
    + rewrite !Z.mod_pow2_bits_low by lia.
      pose proof (weekdays_of_mask_In m1 (Z.to_nat k)) as H1.
      pose proof (weekdays_of_mask_In m2 (Z.to_nat k)) as H2.
      rewrite H in H1. rewrite Z2Nat.id in H1, H2 by lia.
      destruct (Z.testbit m1 k), (Z.testbit m2 k); try reflexivity.
      * assert (Z.to_nat k < 7 /\ true = true) as Hk1 by (split; [lia | reflexivity]).
        apply H1, H2 in Hk1. now destruct Hk1.
      * assert (Z.to_nat k < 7 /\ true = true) as Hk2 by (split; [lia | reflexivity]).
        apply H2, H1 in Hk2. now destruct Hk2.
    + now rewrite !Z.mod_pow2_bits_high by lia.
  - intros H. rewrite !weekdays_of_mask_filter.
    apply filter_ext_in. intros w Hw. apply in_seq in Hw.
    rewrite <- (Z.mod_pow2_bits_low m1 7), <- (Z.mod_pow2_bits_low m2 7) by lia.
    now rewrite H.
Qed.

Lemma slice_single (A : Type) (l : list A) (i : nat) (x : A) :
  nth_error l i = Some x -> slice i (S i) l = [x].
Proof.
  intros H. destruct (nth_error_split l i H) as (l1 & l2 & -> & <-).
  unfold slice. rewrite skipn_app, skipn_all, Nat.sub_diag.
  replace (S (length l1) - length l1) with 1 by lia. reflexivity.
Qed.

Lemma from_bytes_big_single (b : byte) : from_bytes_big [b] = byte_val b.
Proof. unfold from_bytes_big. cbn [fold_left]. lia. Qed.

Section SchedulerFields.
Context {ext : Externals}.

(** X7. A two-digit year in a scheduler entry is read in the century of
    the current year: the decoded year keeps the two digits and shares the
    hundreds with the clock. *)
Theorem parse_scheduler_year_in_current_century (data : bytes) (y : byte) :
  nth_error data 3 = Some y ->
  (byte_val y < 100)%Z ->
  (sch_year (_parse_scheduler data) mod 100 = byte_val y
   /\ sch_year (_parse_scheduler data) / 100 = now_year / 100)%Z.
Proof.
  intros Hy Hlt. unfold _parse_scheduler. cbn [sch_year].
  rewrite (slice_single _ _ Hy), from_bytes_big_single.
  pose proof (byte_val_range y).
  pose proof (Z.div_mod now_year 100 ltac:(lia)).
  replace (byte_val y + (now_year - now_year mod 100))%Z
    with (byte_val y + (now_year / 100) * 100)%Z by lia.
  rewrite Z.mod_add, Z.div_add by lia.
  rewrite Z.mod_small, Z.div_small by lia. lia.
Qed.

End SchedulerFields.

(** ** Dispatch *)

Lemma slice_3_2 (l : bytes) (a b c : byte) :
  slice 0 3 l = [a; b; c] -> slice 0 2 l = [a; b].
Proof.
  destruct l as [|x [|y [|z l]]]; cbn; try discriminate. now intros [= -> -> ->].
Qed.

(** Turns the test that selected a branch into facts on the payload. *)
Ltac branch_facts Hc :=
  unfold prefix2, prefix3, flag in Hc;
  repeat match type of Hc with
         | (_ && _) = true =>
             let H1 := fresh "Hc" in
             apply andb_true_iff in Hc; destruct Hc as [Hc H1];
             try apply bytes_eqb_eq in H1; try apply Nat.eqb_eq in H1
         end;
  apply bytes_eqb_eq in Hc;
  try (apply slice_3_2 in Hc).

(** Splits [H] on its length tests, keeping what each one says. *)
Ltac split_length_tests H :=
  repeat match type of H with
         | context [(?a =? ?b)%nat] => destruct (Nat.eqb_spec a b)
         | context [(?a <? ?b)%nat] => destruct (Nat.ltb_spec a b)
         end.

Ltac walk_dispatch_keeping leaf :=
  repeat match goal with
         | |- snd (if ?c then _ else _) = _ -> _ =>
             let Hc := fresh "Hc" in
             destruct c eqn:Hc;
             [ let H := fresh "H" in
               intros H; branch_facts Hc;
               cbv [no_stderr with_length parse_timer_status bind_result
                    index parse_scheduler_page parse_serial] in H;
               split_length_tests H; cbn [negb] in H;
               split_tests H; cbn [snd] in H;
               leaf H
             | clear Hc ]
         end.

Ltac kind_facts H :=
  first
    [ discriminate H
    | injection H as <-; cbn [opcode_of required_length];
      split; [assumption | intros L HL; first [discriminate HL | injection HL as <-; assumption]] ].

Section Dispatch.
Context {ext : Externals}.

(** X8. A decoded notification fixes the two opcode bytes its payload
    started with, and for the kinds of fixed length also the length of
    that payload. *)
Theorem decoded_kind_fixes_opcode_and_length (payload : bytes)
    (n : notification) :
  snd (parse_notification payload) = Ok n ->
  slice 0 2 payload = opcode_of n
  /\ forall L, required_length n = Some L -> length payload = L.
Proof.
  unfold parse_notification. walk_dispatch_keeping kind_facts.
  intros H. discriminate H.
Qed.

(** X9. A five-byte [17 00] payload is an authorization, change-PIN or
    reset-PIN result according to byte 3 being 00, 01 or 02, successful
    exactly when byte 2 is 00 (any other value, such as 02, is a failure);
    every other byte 3 is an unsupported message. *)
Theorem pin_family_dispatch (status selector last : byte) :
  parse_notification [x17; x00; status; selector; last] =
    ([], match pin_family selector (Byte.eqb status x00) with
         | Some n => Ok n
         | None => Raise UnsupportedMessage
         end).
Proof.
  assert (Hflag : flag [x17; x00; status; selector; last] 2 x00 =
                  Byte.eqb status x00).
  { unfold flag, slice. cbn. apply andb_true_r. }
  destruct selector;
    unfold parse_notification;
    first [ rewrite Hflag; reflexivity | reflexivity ].
Qed.

(** X10. A payload shorter than two bytes matches no opcode and is an
    unsupported message. *)
Theorem short_payload_is_unsupported (payload : bytes) :
  length payload < 2 ->
  parse_notification payload = ([], Raise UnsupportedMessage).
Proof.
  intros Hlen. destruct payload as [|a [|b rest]]; [| |cbn in Hlen; lia].
  - reflexivity.
  - unfold parse_notification, prefix2, prefix3, slice.
    cbn [Nat.sub skipn firstn bytes_eqb].
    rewrite !andb_false_r. reflexivity.
Qed.

(** X11. A [14 00] payload whose length is not 3 plus a multiple of 12 is
    refused, and the expected length reported is the least length of a
    whole page above the actual one. *)
Theorem scheduler_page_bad_length (rest : bytes) :
  let payload := x14 :: x00 :: rest in
  (forall k, length payload <> 3 + 12 * k) ->
  exists expected,
    parse_notification payload =
      ([], Raise (InvalidPayloadLengthException
                    SchedulerRequestedNotification_class expected
                    (length payload)))
    /\ length payload < expected <= length payload + 11
    /\ (expected - 3) mod 12 = 0.
Proof.
  intros payload Hlen.
  change (parse_notification payload) with (parse_scheduler_page payload).
  clearbody payload. unfold parse_scheduler_page.
  pose proof (Nat.mod_upper_bound (length payload - 3) 12 ltac:(lia)) as Hub.
  pose proof (Nat.div_mod_eq (length payload - 3) 12) as Hdm.
  destruct (Nat.ltb_spec (length payload) 3) as [Hshort|Hlong].
  - exists 3. split; [reflexivity|]. split; [lia | reflexivity].
  - destruct (Nat.eqb_spec ((length payload - 3) mod 12) 0) as [H0|Hr].
    + elim (Hlen ((length payload - 3) / 12)). lia.
    + cbn [negb]. eexists. split; [reflexivity|]. split; [lia|].
      replace (length payload + 12 - (length payload - 3) mod 12 - 3)
        with ((1 + (length payload - 3) / 12) * 12) by lia.
      apply Nat.Div0.mod_mul.
Qed.

(** X12. Every 13-byte [09 00] payload decodes to a timer status and no
    index is out of range: the timer runs unless byte 2 is 00, its action
    is to turn on exactly when byte 2 is 01, the target time is read from
    bytes 3 to 8 as second, minute, hour, day, month and year, and the
    original length from the three bytes that follow. *)
Theorem timer_status_layout
    (status second minute hour day month year l1 l2 l3 last : byte) :
  parse_notification
    [x09; x00; status; second; minute; hour; day; month; year; l1; l2; l3;
     last] =
    ([], Ok (RequestedTimerStatusNotification
               (negb (Byte.eqb status x00)) (Byte.eqb status x01)
               (byte_val year) (byte_val month) (byte_val day)
               (byte_val hour) (byte_val minute) (byte_val second)
               (byte_val l1 * 65536 + byte_val l2 * 256 + byte_val l3)%Z)).
Proof.
  rewrite <- from_bytes_big_3.
  rewrite <- (andb_true_r (Byte.eqb status x00)),
          <- (andb_true_r (Byte.eqb status x01)).
  reflexivity.
Qed.

End Dispatch.

(** ** Consumption series *)

Section ConsumptionSeries.
Context {ext : Externals}.

(** X13. For any length of a 12-months or 30-days payload, the series has
    one element more than there are whole 4-byte entries behind the opcode
    (bytes of an incomplete last entry are dropped, and a bare opcode
    gives the single element [None]); behind the leading [None] the
    entries follow in reverse transmission order, each read from its first
    three bytes. *)
Theorem consumption_series_of_any_length (opcode : byte) (rest : bytes) :
  opcode = x0c \/ opcode = x0b ->
  let payload := opcode :: x00 :: rest in
  let count := length rest / 4 in
  exists l,
    parse_notification payload =
      ([], Ok (if Byte.eqb opcode x0c
               then ConsumptionOfLast12MonthsRequestedNotification l
               else ConsumptionOfLast30DaysRequestedNotification l))
    /\ length l = 1 + count
    /\ nth_error l 0 = Some None
    /\ forall k, k < count ->
         nth_error l (S k) =
           Some (Some (from_bytes_big
                         (firstn 3 (transmitted_entry payload (count - 1 - k))))).
Proof.
  intros Hop payload count.
  exists (None :: consumption_loop 4 3 payload).
  assert (Hcount : (length payload - 2) / 4 = count).
  { subst payload count. cbn [length]. f_equal. lia. }
  split; [destruct Hop as [-> | ->]; reflexivity|].
  split; [cbn [length]; now rewrite consumption_loop_length, Hcount|].
  split; [reflexivity|].
  intros k Hk. cbn [nth_error].
  rewrite consumption_loop_nth by (rewrite Hcount; exact Hk).
  now rewrite Hcount, transmitted_entry_value.
Qed.

(** X14. The 23-hours series has one element per whole 2-byte entry and no
    leading [None]: element [k] is the big-endian value of the entry sent
    [k] places before the last, so a bare opcode gives the empty series. *)
Theorem last_23_hours_series (rest : bytes) :
  let payload := x0a :: x00 :: rest in
  let count := length rest / 2 in
  exists l,
    parse_notification payload =
      ([], Ok (ConsumptionOfLast23HoursRequestedNotification l))
    /\ length l = count
    /\ forall k, k < count ->
         nth_error l k =
           Some (Some (from_bytes_big
                         (slice (2 + 2 * (count - 1 - k))
                                (2 + 2 * (count - 1 - k) + 2) payload))).
Proof.
  intros payload count.
  exists (consumption_loop 2 2 payload).
  assert (Hcount : (length payload - 2) / 2 = count).
  { subst payload count. cbn [length]. f_equal. lia. }
  split; [reflexivity|].
  split; [now rewrite consumption_loop_length, Hcount|].
  intros k Hk.
  rewrite consumption_loop_nth by (rewrite Hcount; exact Hk).
  now rewrite Hcount.
Qed.

End ConsumptionSeries.

(** ** Field widths *)

Lemma from_bytes_big_app (l : bytes) (b : byte) :
  from_bytes_big (l ++ [b]) = (from_bytes_big l * 256 + byte_val b)%Z.
Proof. unfold from_bytes_big. now rewrite fold_left_app. Qed.

Lemma from_bytes_big_bound (l : bytes) :
  (0 <= from_bytes_big l < 256 ^ Z.of_nat (length l))%Z.
Proof.
  induction l as [|b l IH] using rev_ind.
  - cbn. lia.
  - rewrite from_bytes_big_app, length_app. cbn [length].
    pose proof (byte_val_range b).
    replace (Z.of_nat (length l + 1)) with (Z.succ (Z.of_nat (length l))) by lia.
    rewrite Z.pow_succ_r by lia. lia.
Qed.

Lemma from_bytes_big_slice_bound (a b : nat) (l : bytes) :
  (0 <= from_bytes_big (slice a b l) < 256 ^ Z.of_nat (b - a))%Z.
Proof.
  pose proof (from_bytes_big_bound (slice a b l)) as [H0 H1].
  split; [exact H0|].
  eapply Z.lt_le_trans; [exact H1|].
  apply Z.pow_le_mono_r; [lia|].
  unfold slice. rewrite length_firstn. lia.
Qed.

Ltac absurd_or_keep H := first [ discriminate H | idtac ].

Section FieldWidths.
Context {ext : Externals}.

Lemma parse_notification_settings_inv (payload : bytes) (n : notification) :
  snd (parse_notification payload) = Ok n ->
  opcode_of n = [x10; x00] ->
  n = parse_settings payload.
Proof.
  unfold parse_notification.
  walk_dispatch ltac:(fun H =>
    first [ discriminate H
          | injection H as <-; first [ reflexivity | discriminate 1 ] ]).
  intros H. discriminate H.
Qed.

Lemma parse_notification_measurement_inv (payload : bytes) (n : notification) :
  snd (parse_notification payload) = Ok n ->
  opcode_of n = [x04; x00] ->
  n = parse_measurement payload.
Proof.
  unfold parse_notification.
  walk_dispatch ltac:(fun H =>
    first [ discriminate H
          | injection H as <-; first [ reflexivity | discriminate 1 ] ]).
  intros H. discriminate H.
Qed.

(** X15. Every decoded settings notification carries unsigned values
    bounded by their field widths: both prices below 256 cent, both times
    of the reduced period and the power limit below 65536. *)
Theorem settings_fields_in_range (payload : bytes)
    (is_reduced_period : bool) (normal reduced start stop : Z)
    (is_led_active : bool) (limit : Z) :
  snd (parse_notification payload) =
    Ok (RequestedSettingsNotification is_reduced_period normal reduced
          start stop is_led_active limit) ->
  (0 <= normal < 256 /\ 0 <= reduced < 256 /\ 0 <= start < 65536
   /\ 0 <= stop < 65536 /\ 0 <= limit < 65536)%Z.
Proof.
  intros H. apply parse_notification_settings_inv in H; [|reflexivity].
  unfold parse_settings in H. injection H as _ -> -> -> -> _ ->.
  pose proof (from_bytes_big_slice_bound 3 4 payload).
  pose proof (from_bytes_big_slice_bound 4 5 payload).
  pose proof (from_bytes_big_slice_bound 5 7 payload).
  pose proof (from_bytes_big_slice_bound 7 9 payload).
  pose proof (from_bytes_big_slice_bound 11 13 payload).
  cbn in *. lia.
Qed.

(** X16. Every decoded measurement carries unsigned values bounded by
    their field widths: power below 2^24 mW, voltage and frequency below
    256, current below 65536 mA and the total below 2^32. *)
Theorem measurement_fields_in_range (payload : bytes)
    (is_power_active : bool) (power voltage current frequency total : Z) :
  snd (parse_notification payload) =
    Ok (MeasurementRequestedNotification is_power_active power voltage
          current frequency total) ->
  (0 <= power < 2 ^ 24 /\ 0 <= voltage < 256 /\ 0 <= current < 65536
   /\ 0 <= frequency < 256 /\ 0 <= total < 2 ^ 32)%Z.
Proof.
  intros H. apply parse_notification_measurement_inv in H; [|reflexivity].
  unfold parse_measurement in H. injection H as _ -> -> -> -> ->.
  pose proof (from_bytes_big_slice_bound 3 6 payload).
  pose proof (from_bytes_big_slice_bound 6 7 payload).
  pose proof (from_bytes_big_slice_bound 7 9 payload).
  pose proof (from_bytes_big_slice_bound 9 10 payload).
  pose proof (from_bytes_big_slice_bound 12 16 payload).
  cbn in *. lia.
Qed.

End FieldWidths.

(** ** A measurement reply *)

Section MeasurementReply.
Context {ext : Externals}.

Lemma measurement_frame_consumed (lb cb : byte) (rest : bytes) :
  let payload := x04 :: x00 :: rest in
  frame_fields_ok lb payload cb ->
  has_final_raw_notification [framed lb payload cb []] = true
  /\ parse (concat [framed lb payload cb []]) =
       ([], Ok (parse_measurement payload)).
Proof.
  intros payload Hok. split; [reflexivity|].
  cbn [concat]. rewrite app_nil_r. unfold parse.
  rewrite (parse_payload_framed _ Hok). reflexivity.
Qed.

End MeasurementReply.

(** ** The wait loop *)

Lemma wait_loop_prefix (f : list bytes) :
  forall r,
    exists k,
      k <= length f
      /\ snd (wait_loop f r) = r ++ firstn k f
      /\ fst (wait_loop f r) = skipn k f
      /\ (has_final_raw_notification (snd (wait_loop f r)) = true
          \/ k = length f)
      /\ forall j, 0 < j < k ->
           has_final_raw_notification (r ++ firstn j f) = false.
Proof.
  induction f as [|d f IH]; intros r.
  - exists 0. cbn. rewrite app_nil_r.
    repeat split; auto; try (intros j Hj; lia).
  - cbn [wait_loop]. unfold handleNotification.
    destruct (has_final_raw_notification (r ++ [d])) eqn:Hfin.
    + exists 1. cbn [fst snd firstn skipn length].
      repeat split; auto; try lia; try (intros j Hj; lia).
    + destruct (IH (r ++ [d])) as (k & Hk & Hs & Hf & Hend & Hbefore).
      exists (S k). cbn [firstn skipn length].
      rewrite Hs, Hf, <- app_assoc. cbn [app].
      repeat split; auto; try lia.
      * destruct Hend as [Hend|Hend]; [left | right; lia].
        rewrite Hs, <- app_assoc in Hend. exact Hend.
      * intros [|[|j]] Hj; [lia | exact Hfin |].
        specialize (Hbefore (S j) ltac:(lia)).
        rewrite <- app_assoc in Hbefore. exact Hbefore.
Qed.


Lemma wait_loop_not_final (f r : list bytes) :
  has_final_raw_notification (snd (wait_loop f r)) = false ->
  wait_loop f r = ([], r ++ f).
Proof.
  intros Hnf.
  destruct (wait_loop_prefix f r) as (k & Hk & Hs & Hf & Hend & _).
  destruct Hend as [Hend | ->]; [congruence|].
  rewrite firstn_all in Hs. rewrite skipn_all in Hf.
  destruct (wait_loop f r) as [f' r']. cbn [fst snd] in *. congruence.
Qed.

(** ** Transactions *)

Section Transactions.
Context {ext : Externals}.

Lemma method_link_up (c : command) (o : SEM6000) (w : World)
    (encoded : bytes) (printed : list stderr_line) (n : notification)
    (B : Type) (k : notification -> M B) :
  ready o w ->
  encode c = Ok encoded ->
  replies w encoded printed n ->
  (_send_command c true ;;; x <- _consume_notification ;; k x) (o, w) =
    k n (set_raw [] o, world_after_transaction o w c encoded printed n).
Proof.
  intros (Hper & Hup & Hfl) He [Hc Hp].
  destruct (_peripheral o) as [per|] eqn:Hp'; [|congruence].
  unfold _send_command. rewrite max_nesting_S.
  now apply transaction_link_up with (per := per).
Qed.

Lemma world_after_transaction_events (o : SEM6000) (w : World) (c : command)
    (encoded : bytes) (printed : list stderr_line) (n : notification) :
  events (world_after_transaction o w c encoded printed n) =
    events w ++ [EvWrite encoded true].
Proof.
  unfold world_after_transaction, world_after_send.
  destruct w as [dev fl up ng cok ncn evs err].
  destruct o as [dbg addr ifc p raw per cc nc]. cbn. now destruct dbg.
Qed.

(** X18. A reply that never becomes final ends the transaction with the
    incomplete-notification exception after the command was written once:
    nothing is decoded, and every fragment received stays in the buffer. *)
Theorem unfinished_reply_is_incomplete (c : command) (o : SEM6000) (w : World)
    (encoded : bytes) :
  ready o w ->
  encode c = Ok encoded ->
  has_final_raw_notification (snd (wait_loop (device w encoded) [])) = false ->
  exists w',
    (_send_command c true ;;; _consume_notification) (o, w) =
      (Raise IncompleteNotificationData, (set_raw (device w encoded) o, w'))
    /\ events w' = events w ++ [EvWrite encoded true]
    /\ in_flight w' = [].
Proof.
  intros (Hper & Hup & Hfl) He Hnf.
  destruct (_peripheral o) as [per|] eqn:Hp'; [|congruence].
  pose proof (wait_loop_not_final _ _ Hnf) as Hw. cbn [app] in Hw.
  unfold _send_command. rewrite max_nesting_S.
  erewrite bind_run; [| eapply send_command_link_up; eassumption].
  rewrite Hfl. cbn [app]. rewrite Hw in *. cbn [fst snd] in *.
  unfold _consume_notification, consume_notification. cbn [fst snd].
  destruct o as [dbg addr ifc p raw per' cc nc].
  cbn [set_raw debug _raw_notifications]. rewrite Hnf. cbn [negb].
  eexists. split; [reflexivity|].
  destruct w as [dev fl up ng cok ncn evs err].
  unfold world_after_send. cbn. destruct dbg; cbn; auto.
Qed.

Lemma world_after_transaction_keeps (o : SEM6000) (w : World) (c : command)
    (encoded : bytes) (printed : list stderr_line) (n : notification) :
  let w' := world_after_transaction o w c encoded printed n in
  device w' = device w /\ link_up w' = link_up w /\ in_flight w' = []
  /\ n_getState w' = S (n_getState w) /\ n_connect w' = n_connect w.
Proof.
  unfold world_after_transaction, world_after_send.
  destruct w as [dev fl up ng cok ncn evs err].
  destruct o as [dbg addr ifc p raw per cc nc]. cbn. now destruct dbg.
Qed.

(** X19. A send that finds the link down with no address or no PIN
    remembered raises the not-connected exception: no connect is tried and
    nothing is written, and the fragment buffer has already been reset. *)
Theorem send_without_credentials (c : command) (wr : bool) (o : SEM6000)
    (w : World) (encoded : bytes) :
  encode c = Ok encoded ->
  found_connected o w = false ->
  truthy (deviceAddr o) && truthy (pin o) = false ->
  exists w',
    _send_command c wr (o, w) = (Raise NotConnected, (set_raw [] o, w'))
    /\ events w' = events w /\ n_connect w' = n_connect w.
Proof.
  intros He Hdown Hcred.
  unfold _send_command. rewrite max_nesting_S, send_command_unfold.
  destruct o as [dbg addr ifc p raw per cc nc].
  destruct w as [dev fl up ng cok ncn evs err].
  unfold found_connected in Hdown.
  cbn [pin deviceAddr _peripheral link_up n_getState] in *.
  destruct dbg, per as [per|];
    run_engine; rewrite He; run_engine; rewrite ?Hdown; run_engine;
    rewrite Hcred; eexists; (split; [reflexivity|]); split; reflexivity.
Qed.

(** X20. With no PIN remembered, [connect] stores address and interface,
    drops any previous peripheral and connects once without writing any
    command; when the connect fails it raises the transport exception and
    leaves the session without a peripheral, the address still stored. *)
Theorem connect_without_pin (a i : option string) (o : SEM6000) (w : World) :
  truthy (pin o) = false ->
  let ok := connect_ok w (n_connect w) in
  exists o' w',
    connect a i (o, w) =
      ((if ok then Ok tt else Raise BTLEException), (o', w'))
    /\ deviceAddr o' = a /\ iface o' = i /\ pin o' = pin o
    /\ _peripheral o' = (if ok then Some btle_Peripheral else None)
    /\ events w' =
         events w ++ disconnect_events o
         ++ EvConnect a i ok :: (if ok then [] else [EvDisconnect]).
Proof.
  intros Hpin ok. subst ok.
  unfold connect, _reconnect, _reconnect_with.
  destruct o as [dbg addr ifc p raw per cc nc].
  destruct w as [dev fl up ng cok ncn evs err].
  unfold disconnect_events. cbn [pin _peripheral connect_ok n_connect events] in *.
  destruct per as [per|]; run_engine;
    destruct (cok ncn); run_engine; rewrite ?Hpin;
    do 2 eexists; (split; [reflexivity|]);
    repeat split; cbn [app]; rewrite <- ?app_assoc; reflexivity.
Qed.

Section Outcomes.

Variables (o : SEM6000) (w : World) (encoded : bytes).
Variables (printed : list stderr_line) (n : notification).
Hypothesis Hready : ready o w.
Hypothesis Hreplies : replies w encoded printed n.

Let after (c : command) : state :=
  (set_raw [] o, world_after_transaction o w c encoded printed n).

Lemma accepting_method (c : command) (accepted : notification -> bool)
    (failure : exn) (k : notification -> M notification) :
  encode c = Ok encoded ->
  (forall x s, k x s = (outcome accepted failure x, s)) ->
  (_send_command c true ;;; x <- _consume_notification ;; k x) (o, w) =
    (outcome accepted failure n, after c).
Proof.
  intros He Hk.
  rewrite method_link_up
    with (encoded := encoded) (printed := printed) (n := n);
    [apply Hk | assumption ..].
Qed.

End Outcomes.

Ltac by_kind :=
  let x := fresh "x" in
  let s := fresh "s" in
  intros x s; unfold outcome; destruct x; try reflexivity;
  match goal with b : bool |- _ => destruct b; reflexivity end.

(** X21. Over a link that is up, [power_on] and [power_off] return the
    decoded reply when it is a successful power-switch notification and
    raise their own exception for any other reply, a refusal included;
    either way the reply has been consumed and the buffer is empty. *)
Theorem power_switch_outcome (Exception : string -> exn) (on : bool)
    (o : SEM6000) (w : World) (encoded : bytes)
    (printed : list stderr_line) (n : notification) :
  ready o w ->
  encode (PowerSwitchCommand on) = Ok encoded ->
  replies w encoded printed n ->
  (if on then power_on else power_off Exception) (o, w) =
    (outcome is_power_switched
       (if on then PowerOnFailed else Exception "Power off failed"%string) n,
     (set_raw [] o,
      world_after_transaction o w (PowerSwitchCommand on) encoded printed n)).
Proof.
  intros Hready He Hrep.
  destruct on; unfold power_on, power_off;
    apply accepting_method; auto; by_kind.
Qed.

(** X22. Over a link that is up, [change_pin] builds its command from the
    remembered PIN and the new one; it returns a successful change-PIN
    reply and raises for any other, and in neither case does it touch the
    remembered PIN, which stays the old one after a successful change. *)
Theorem change_pin_keeps_remembered_pin (Exception : string -> exn)
    (ChangePinCommand : option string -> string -> command)
    (new_pin : string) (o : SEM6000) (w : World) (encoded : bytes)
    (printed : list stderr_line) (n : notification) :
  ready o w ->
  encode (ChangePinCommand (pin o) new_pin) = Ok encoded ->
  replies w encoded printed n ->
  exists o' w',
    change_pin Exception ChangePinCommand new_pin (o, w) =
      (outcome is_pin_changed (Exception "Change PIN failed"%string) n, (o', w'))
    /\ pin o' = pin o
    /\ events w' = events w ++ [EvWrite encoded true].
Proof.
  intros Hready He Hrep.
  exists (set_raw [] o),
         (world_after_transaction o w (ChangePinCommand (pin o) new_pin)
            encoded printed n).
  split; [|split].
  - unfold change_pin. unfold bind at 1. unfold get_obj. cbn [fst].
    apply accepting_method; auto. by_kind.
  - now destruct o.
  - apply world_after_transaction_events.
Qed.

(** X23. The three consumption requests, [reset_consumption] and
    [factory_reset] answer a reply that is not the one they wait for with
    [TypeError], because they raise a [str]; the reply they wait for is
    returned. *)
Theorem str_raising_methods_raise_TypeError
    (c12 c30 c23 creset cfactory : command)
    (method : M notification) (c : command) (accepted : notification -> bool)
    (o : SEM6000) (w : World) (encoded : bytes)
    (printed : list stderr_line) (n : notification) :
  In (method, c, accepted)
     (methods_raising_a_str c12 c30 c23 creset cfactory) ->
  ready o w ->
  encode c = Ok encoded ->
  replies w encoded printed n ->
  method (o, w) =
    (outcome accepted TypeError n,
     (set_raw [] o, world_after_transaction o w c encoded printed n)).
Proof.
  intros Hin Hready He Hrep.
  unfold methods_raising_a_str in Hin. cbn [In] in Hin.
  destruct Hin as [H|[H|[H|[H|[H|[]]]]]]; injection H as <- <- <-;
    [ unfold request_consumption_of_last_12_months
    | unfold request_consumption_of_last_30_days
    | unfold request_consumption_of_last_23_hours
    | unfold reset_consumption
    | unfold factory_reset ];
    apply accepting_method; auto; by_kind.
Qed.

(** X24. A measurement reply that arrives as one fragment without the
    terminator completes [request_measurement]: the reassembler takes the
    fragment as final, unwrap accepts the frame and the measurement is
    returned. *)
Theorem request_measurement_without_terminator (Exception : string -> exn)
    (RequestMeasurementCommand : command) (o : SEM6000) (w : World)
    (encoded : bytes) (lb cb : byte) (rest : bytes) :
  let payload := x04 :: x00 :: rest in
  ready o w ->
  encode RequestMeasurementCommand = Ok encoded ->
  device w encoded = [framed lb payload cb []] ->
  frame_fields_ok lb payload cb ->
  run_result (request_measurement Exception RequestMeasurementCommand (o, w)) =
    Ok (parse_measurement payload)
  /\ _raw_notifications
       (fst (snd (request_measurement Exception RequestMeasurementCommand (o, w))))
     = [].
Proof.
  intros payload Hready He Hdev Hok.
  destruct (@measurement_frame_consumed _ lb cb rest Hok) as [Hfinal Hparse].
  assert (Hrep : replies w encoded [] (parse_measurement payload)).
  { unfold replies, complete_reply. rewrite Hdev. repeat split; auto. }
  unfold request_measurement.
  rewrite method_link_up
    with (encoded := encoded) (printed := []) (n := parse_measurement payload);
    [ | assumption ..].
  split; [reflexivity | now destruct o].
Qed.

(** X25. Over a link that is up, [authorize] remembers the PIN it sent
    when the reply accepts it, forgets any remembered PIN when the reply
    refuses it, and raises the authentication exception for a refusal and
    for a reply of any other kind. *)
Theorem authorize_outcome (p : string) (o : SEM6000) (w : World)
    (encoded : bytes) (printed : list stderr_line) (n : notification) :
  ready o w ->
  encode (AuthorizeCommand p) = Ok encoded ->
  replies w encoded printed n ->
  exists o' w',
    authorize p (o, w) =
      (match n with
       | AuthorizationNotification true => Ok n
       | _ => Raise AuthenticationFailed
       end, (o', w'))
    /\ pin o' =
         match n with
         | AuthorizationNotification true => Some p
         | AuthorizationNotification false => None
         | _ => pin o
         end
    /\ _raw_notifications o' = []
    /\ events w' = events w ++ [EvWrite encoded true].
Proof.
  intros Hready He Hrep.
  exists (match n with
          | AuthorizationNotification true => set_pin (Some p) (set_raw [] o)
          | AuthorizationNotification false => set_pin None (set_raw [] o)
          | _ => set_raw [] o
          end),
         (world_after_transaction o w (AuthorizeCommand p) encoded printed n).
  split; [|split; [|split]].
  - unfold authorize, authorize_with.
    rewrite method_link_up
      with (encoded := encoded) (printed := printed) (n := n);
      [ | assumption ..].
    destruct n; try reflexivity. destruct was_successful; reflexivity.
  - destruct n; try (now destruct o); destruct was_successful; reflexivity.
  - destruct n; try (now destruct o); destruct was_successful; reflexivity.
  - apply world_after_transaction_events.
Qed.

(** X26. When the reply to the request for page 0 is not a scheduler
    page, [request_scheduler] raises its first-page exception and requests
    no further page. *)
Theorem request_scheduler_first_page_of_other_kind (o : SEM6000) (w : World)
    (encoded : bytes) (printed : list stderr_line) (n : notification) :
  ready o w ->
  encode (RequestSchedulerCommand 0) = Ok encoded ->
  replies w encoded printed n ->
  is_scheduler_page n = false ->
  exists s',
    request_scheduler (o, w) = (Raise RequestSchedulerFirstPageFailed, s')
    /\ events (snd s') = events w ++ [EvWrite encoded true].
Proof.
  intros Hready He Hrep Hkind.
  exists (set_raw [] o,
          world_after_transaction o w (RequestSchedulerCommand 0) encoded
            printed n).
  split; [|apply world_after_transaction_events].
  unfold request_scheduler.
  rewrite method_link_up
    with (encoded := encoded) (printed := printed) (n := n);
    [ | assumption ..].
  destruct n; try reflexivity. discriminate Hkind.
Qed.

(** X27. When page 0 declares at least four schedulers and the reply to
    the request for page 1 is not a scheduler page, [request_scheduler]
    raises its second-page exception right there: the entries of page 0
    are not returned and no page beyond 1 is requested. *)
Theorem request_scheduler_second_page_of_other_kind (o : SEM6000) (w : World)
    (enc0 enc1 : bytes) (printed0 printed1 : list stderr_line)
    (declared : Z) (entries : list SchedulerEntry) (n1 : notification) :
  ready o w ->
  (forall k, link_up w k = true) ->
  encode (RequestSchedulerCommand 0) = Ok enc0 ->
  replies w enc0 printed0 (SchedulerRequestedNotification declared entries) ->
  (4 <= declared)%Z ->
  encode (RequestSchedulerCommand 1) = Ok enc1 ->
  replies w enc1 printed1 n1 ->
  is_scheduler_page n1 = false ->
  exists s',
    request_scheduler (o, w) = (Raise RequestSchedulerSecondPageFailed, s')
    /\ events (snd s') = events w ++ [EvWrite enc0 true; EvWrite enc1 true].
Proof.
  intros Hready Hup He0 Hrep0 Hdecl He1 Hrep1 Hkind.
  set (w1 := world_after_transaction o w (RequestSchedulerCommand 0) enc0
               printed0 (SchedulerRequestedNotification declared entries)).
  destruct (world_after_transaction_keeps o w (RequestSchedulerCommand 0)
              enc0 printed0
              (SchedulerRequestedNotification declared entries))
    as (Hdev & Hlink & Hfl & _ & _).
  fold w1 in Hdev, Hlink, Hfl.
  assert (Hready1 : ready (set_raw [] o) w1).
  { destruct Hready as (Hper & _ & _). unfold ready. split; [|split].
    - now destruct o.
    - rewrite Hlink. apply Hup.
    - exact Hfl. }
  assert (Hrep1' : replies w1 enc1 printed1 n1).
  { unfold replies in *. now rewrite Hdev. }
  exists (set_raw [] (set_raw [] o),
          world_after_transaction (set_raw [] o) w1
            (RequestSchedulerCommand 1) enc1 printed1 n1).
  split.
  - unfold request_scheduler.
    rewrite method_link_up
      with (encoded := enc0) (printed := printed0)
           (n := SchedulerRequestedNotification declared entries);
      [ | assumption ..].
    fold w1. unfold further_pages.
    assert (Hq : exists q, Z.to_nat (declared / 4) = S q).
    { exists (Z.to_nat (declared / 4) - 1).
      pose proof (Z.div_le_mono 4 declared 4 ltac:(lia) Hdecl) as Hd.
      change (4 / 4)%Z with 1%Z in Hd. lia. }
    destruct Hq as (q & ->). cbn [seq map for_each].
    change (Z.of_nat 1) with 1%Z.
    unfold bind at 1 2. unfold request_scheduler_page at 1.
    rewrite method_link_up
      with (encoded := enc1) (printed := printed1) (n := n1);
      [ | assumption ..].
    destruct n1; try reflexivity. discriminate Hkind.
  - cbn [snd]. rewrite world_after_transaction_events.
    unfold w1. rewrite world_after_transaction_events.
    now rewrite <- app_assoc.
Qed.

End Transactions.

(** ** Reconnect with a refused PIN *)

Section ReconnectRefused.
Context {ext : Externals}.

Lemma reconnect_raise (auth : string -> M notification) (o : SEM6000)
    (w : World) (p : string) (e : exn) (s3 : state) :
  connect_ok w (n_connect w) = true ->
  pin o = Some p -> truthy (Some p) = true ->
  auth p (after_connect_obj o, after_connect_world o w) = (Raise e, s3) ->
  _reconnect_with auth (o, w) = (_disconnect ;;; raise e) s3.
Proof.
  intros Hcok Hpin Htp Hauth.
  destruct o as [dbg addr ifc pn raw per cc nc].
  destruct w as [dev fl up ng cok ncn evs err].
  cbn [pin connect_ok n_connect] in *. subst pn.
  unfold after_connect_obj, after_connect_world, after_disconnect_obj in Hauth.
  unfold _reconnect_with.
  destruct per as [per|]; run_engine; rewrite Hcok; run_engine;
    rewrite Htp; run_engine; revert Hauth; run_engine; intros Hauth;
    rewrite Hauth; reflexivity.
Qed.

(** X28. When a send finds the link down, reconnects and the plug refuses
    the remembered PIN, the send raises the authentication exception, the
    new connection is dropped again, the PIN is forgotten and the command
    itself is never written. *)
Theorem send_reauthorization_refused (o : SEM6000) (w : World) (c : command)
    (p a : string) (ec ea : bytes) :
  pin o = Some p -> truthy (Some p) = true ->
  deviceAddr o = Some a -> truthy (Some a) = true ->
  in_flight w = [] ->
  encode c = Ok ec ->
  encode (AuthorizeCommand p) = Ok ea ->
  found_connected o w = false ->
  connect_ok w (n_connect w) = true ->
  link_up w (next_getState o w) = true ->
  complete_reply (device w ea) ->
  snd (parse (concat (device w ea))) = Ok (AuthorizationNotification false) ->
  exists o' w',
    _send_command c true (o, w) = (Raise AuthenticationFailed, (o', w'))
    /\ events w' =
         events w ++ disconnect_events o ++
         [EvConnect (Some a) (iface o) true; EvWrite ea true; EvDisconnect]
    /\ pin o' = None
    /\ _peripheral o' = None.
Proof.
  intros Hpin Htp Haddr Hta Hfl Hec Hea Hdown Hcok Hup Hc Hp.
  destruct (parse (concat (device w ea))) as [printed r] eqn:Hparse.
  cbn [snd] in Hp. subst r.
  unfold _send_command. rewrite max_nesting_S, send_command_unfold.
  destruct o as [dbg addr ifc pn raw per cc nc].
  destruct w as [dev fl up ng cok ncn evs err].
  unfold found_connected, next_getState, disconnect_events in *.
  cbn [pin deviceAddr in_flight connect_ok n_connect device _peripheral
       link_up n_getState events iface] in *.
  subst pn addr fl.
  destruct dbg, per as [per|];
    run_engine; rewrite Hec; run_engine; rewrite ?Hdown; run_engine;
    rewrite Hta, Htp; cbn [andb];
    (erewrite reconnect_raise with (p := p);
      [ | first
            [ exact Hcok | exact Htp | reflexivity
            | unfold after_connect_obj, after_connect_world,
                after_disconnect_obj;
              run_engine;
              eapply (authorize_refused 331) with (printed := printed);
              first [ exact Hup | exact Hea | exact Hc | exact Hparse
                    | reflexivity ] ] .. ]);
    unfold world_after_transaction, world_after_send; run_engine;
    do 2 eexists; (split; [reflexivity|]);
    (split; [ cbn [app]; rewrite <- ?app_assoc; reflexivity
            | split; reflexivity ]).
Qed.

End ReconnectRefused.

(** ** Concrete instances *)

Lemma unwrap_accepts_well_formed_witness :
  _parse_payload (framed x04 sample_switch_payload x04 [xff; xff]) =
    Ok sample_switch_payload.
Proof.
  apply unwrap_accepts_well_formed.
  - split; reflexivity.
  - right. reflexivity.
Defined.

Lemma unwrap_rejects_other_suffix_witness :
  _parse_payload (framed x04 sample_switch_payload x04 [xff]) =
    Raise (InvalidSuffix [xff]).
Proof.
  apply unwrap_rejects_other_suffix.
  - split; reflexivity.
  - discriminate.
  - discriminate.
Defined.

Lemma unwrap_sound_witness :
  exists lb cb suffix,
    [x0f; x04; x03; x00; x00; x04; xff; xff] =
      framed lb sample_switch_payload cb suffix
    /\ frame_fields_ok lb sample_switch_payload cb
    /\ (suffix = [] \/ suffix = [xff; xff])
    /\ length sample_switch_payload <= 254.
Proof.
  apply (@unwrap_sound [x0f; x04; x03; x00; x00; x04; xff; xff]
           sample_switch_payload).
  reflexivity.
Defined.

Lemma unwrap_truncated_witness :
  _parse_payload [x0f; x04; x03; x00] = Raise IndexError.
Proof.
  apply (@unwrap_truncated [x04; x03; x00]).
  right. exists x04, [x03; x00]. split; [reflexivity|].
  vm_compute. lia.
Defined.

Lemma parse_scheduler_year_in_current_century_witness :
  (sch_year (_parse_scheduler sample_scheduler_data) mod 100 = 24
   /\ sch_year (_parse_scheduler sample_scheduler_data) / 100 = 2024 / 100)%Z.
Proof.
  apply (@parse_scheduler_year_in_current_century sample_externals
           sample_scheduler_data x18).
  - reflexivity.
  - reflexivity.
Defined.

Lemma decoded_kind_fixes_opcode_and_length_witness :
  slice 0 2 sample_switch_payload = [x03; x00]
  /\ forall L, Some 3 = Some L -> length sample_switch_payload = L.
Proof.
  apply (@decoded_kind_fixes_opcode_and_length sample_externals
           sample_switch_payload (PowerSwitchNotification true)).
  reflexivity.
Defined.

Lemma short_payload_is_unsupported_witness :
  parse_notification [x14] = ([], Raise UnsupportedMessage).
Proof.
  apply short_payload_is_unsupported. cbn [length]. lia.
Defined.

Lemma scheduler_page_bad_length_witness :
  exists expected,
    parse_notification [x14; x00; x02; x00] =
      ([], Raise (InvalidPayloadLengthException
                    SchedulerRequestedNotification_class expected 4))
    /\ 4 < expected <= 4 + 11
    /\ (expected - 3) mod 12 = 0.
Proof.
  apply (@scheduler_page_bad_length sample_externals [x02; x00]).
  intros k. cbn [length]. lia.
Defined.

Lemma consumption_series_of_any_length_witness :
  exists l,
    parse_notification [x0b; x00; x00; x00; x05; x00; x01] =
      ([], Ok (ConsumptionOfLast30DaysRequestedNotification l))
    /\ length l = 2
    /\ nth_error l 0 = Some None
    /\ forall k, k < 1 ->
         nth_error l (S k) =
           Some (Some (from_bytes_big
                         (firstn 3
                            (transmitted_entry
                               [x0b; x00; x00; x00; x05; x00; x01]
                               (1 - 1 - k))))).
Proof.
  apply (@consumption_series_of_any_length sample_externals x0b
           [x00; x00; x05; x00; x01]).
  right. reflexivity.
Defined.

Lemma settings_fields_in_range_witness :
  (0 <= 30 < 256 /\ 0 <= 20 < 256 /\ 0 <= 1350 < 65536
   /\ 0 <= 360 < 65536 /\ 0 <= 3600 < 65536)%Z.
Proof.
  apply (@settings_fields_in_range sample_externals sample_settings_payload
           true 30 20 1350 360 true 3600).
  reflexivity.
Defined.

Lemma measurement_fields_in_range_witness :
  (0 <= 15000 < 2 ^ 24 /\ 0 <= 230 < 256 /\ 0 <= 65 < 65536
   /\ 0 <= 50 < 256 /\ 0 <= 258 < 2 ^ 32)%Z.
Proof.
  apply (@measurement_fields_in_range sample_externals
           sample_measurement_payload true 15000 230 65 50 258).
  reflexivity.
Defined.

Lemma unfinished_reply_is_incomplete_witness :
  exists w',
    (_send_command (PowerSwitchCommand true) true ;;; _consume_notification)
      (sample_session None, sample_world silent_plug always_up) =
      (Raise IncompleteNotificationData, (set_raw [] (sample_session None), w'))
    /\ events w' = [EvWrite sample_power_on_frame true]
    /\ in_flight w' = [].
Proof.
  apply (@unfinished_reply_is_incomplete sample_externals
           (PowerSwitchCommand true) (sample_session None)
           (sample_world silent_plug always_up) sample_power_on_frame).
  - repeat split. discriminate.
  - reflexivity.
  - reflexivity.
Defined.

Lemma send_without_credentials_witness :
  exists w',
    _send_command (PowerSwitchCommand true) true
      (sample_session None, sample_world silent_plug (down_for 1)) =
      (Raise NotConnected, (set_raw [] (sample_session None), w'))
    /\ events w' = [] /\ n_connect w' = 0.
Proof.
  apply (@send_without_credentials sample_externals (PowerSwitchCommand true)
           true (sample_session None)
           (sample_world silent_plug (down_for 1)) sample_power_on_frame);
    reflexivity.
Defined.

Lemma connect_without_pin_witness :
  exists o' w',
    connect (Some sample_address) None
      (sample_session None, sample_world silent_plug always_up) =
      (Ok tt, (o', w'))
    /\ deviceAddr o' = Some sample_address /\ iface o' = None /\ pin o' = None
    /\ _peripheral o' = Some btle_Peripheral
    /\ events w' =
         [EvDisconnect; EvConnect (Some sample_address) None true].
Proof.
  apply (@connect_without_pin sample_externals (Some sample_address) None
           (sample_session None) (sample_world silent_plug always_up)).
  reflexivity.
Defined.

Lemma power_switch_outcome_witness :
  power_on (sample_session None, sample_world (sample_plug x00) always_up) =
    (Ok (PowerSwitchNotification true),
     (set_raw [] (sample_session None),
      world_after_transaction (sample_session None)
        (sample_world (sample_plug x00) always_up) (PowerSwitchCommand true)
        sample_power_on_frame [] (PowerSwitchNotification true))).
Proof.
  apply (@power_switch_outcome sample_externals sample_Exception true
           (sample_session None) (sample_world (sample_plug x00) always_up)
           sample_power_on_frame [] (PowerSwitchNotification true)).
  - repeat split. discriminate.
  - reflexivity.
  - repeat split.
Defined.

Lemma change_pin_keeps_remembered_pin_witness :
  exists o' w',
    change_pin sample_Exception sample_change_pin_command other_pin
      (sample_session (Some sample_pin),
       sample_world pin_changing_plug always_up) =
      (Ok (ChangePinNotification true), (o', w'))
    /\ pin o' = Some sample_pin
    /\ exists written, events w' = [EvWrite written true].
Proof.
  destruct (@change_pin_keeps_remembered_pin sample_externals
              sample_Exception sample_change_pin_command other_pin
              (sample_session (Some sample_pin))
              (sample_world pin_changing_plug always_up)
              (sample_frame ([x17; x00; x00] ++ list_byte_of_string other_pin))
              [] (ChangePinNotification true))
    as (o' & w' & Hrun & Hpin & Hev).
  - repeat split. discriminate.
  - reflexivity.
  - repeat split.
  - exists o', w'. split; [exact Hrun|]. split; [exact Hpin|].
    eexists. exact Hev.
Defined.

Lemma str_raising_methods_raise_TypeError_witness :
  run_result
    (request_consumption_of_last_12_months sample_request_command
       (sample_session None, sample_world measuring_plug always_up)) =
    Raise TypeError.
Proof.
  pose proof
    (@str_raising_methods_raise_TypeError sample_externals
       sample_request_command sample_request_command sample_request_command
       sample_request_command sample_request_command
       (request_consumption_of_last_12_months sample_request_command)
       sample_request_command is_12_months
       (sample_session None) (sample_world measuring_plug always_up)
       (sample_page_request 4) [] (parse_measurement sample_measurement_payload))
    as H.
  rewrite H.
  - reflexivity.
  - left. reflexivity.
  - repeat split. discriminate.
  - reflexivity.
  - repeat split.
Defined.

Lemma request_measurement_without_terminator_witness :
  run_result
    (request_measurement sample_Exception sample_request_command
       (sample_session None, sample_world measuring_plug always_up)) =
    Ok (parse_measurement sample_measurement_payload).
Proof.
  apply (@request_measurement_without_terminator sample_externals
           sample_Exception sample_request_command (sample_session None)
           (sample_world measuring_plug always_up) (sample_page_request 4)
           x11 x34
           [x01; x00; x3a; x98; xe6; x00; x41; x32; x00; x00;
            x00; x00; x01; x02]).
  - repeat split. discriminate.
  - reflexivity.
  - reflexivity.
  - split; reflexivity.
Defined.

Lemma authorize_outcome_witness :
  exists o' w',
    authorize other_pin
      (sample_session (Some sample_pin),
       sample_world refusing_plug always_up) =
      (Raise AuthenticationFailed, (o', w'))
    /\ pin o' = None
    /\ _raw_notifications o' = []
    /\ exists written, events w' = [EvWrite written true].
Proof.
  destruct (@authorize_outcome sample_externals other_pin
              (sample_session (Some sample_pin))
              (sample_world refusing_plug always_up)
              (sample_frame ([x17; x00; x00] ++ list_byte_of_string other_pin))
              [] (AuthorizationNotification false))
    as (o' & w' & Hrun & Hpin & Hraw & Hev).
  - repeat split. discriminate.
  - reflexivity.
  - repeat split.
  - exists o', w'. repeat split; try assumption. eexists. exact Hev.
Defined.

Lemma request_scheduler_first_page_of_other_kind_witness :
  exists s',
    request_scheduler
      (sample_session None, sample_world wrong_kind_plug always_up) =
      (Raise RequestSchedulerFirstPageFailed, s')
    /\ events (snd s') = [page_write sample_page_request 0].
Proof.
  apply (@request_scheduler_first_page_of_other_kind sample_externals
           (sample_session None) (sample_world wrong_kind_plug always_up)
           (sample_page_request 0) [] (PowerSwitchNotification true)).
  - repeat split. discriminate.
  - reflexivity.
  - repeat split.
  - reflexivity.
Defined.

Lemma request_scheduler_second_page_of_other_kind_witness :
  exists s',
    request_scheduler
      (sample_session None, sample_world page_then_switch_plug always_up) =
      (Raise RequestSchedulerSecondPageFailed, s')
    /\ events (snd s') =
         [page_write sample_page_request 0; page_write sample_page_request 1].
Proof.
  destruct (@request_scheduler_second_page_of_other_kind sample_externals
              (sample_session None)
              (sample_world page_then_switch_plug always_up)
              (sample_page_request 0) (sample_page_request 1) [] [] 4
              (map (entry_at (slice 2 53 four_schedulers_page_0)) (seq 0 4))
              (PowerSwitchNotification true))
    as (s' & Hrun & Hev).
  - repeat split. discriminate.
  - reflexivity.
  - reflexivity.
  - repeat split.
  - lia.
  - reflexivity.
  - repeat split.
  - reflexivity.
  - exists s'. split; [exact Hrun | exact Hev].
Defined.

Lemma send_reauthorization_refused_witness :
  exists o' w',
    _send_command (PowerSwitchCommand true) true
      (sample_session (Some sample_pin),
       sample_world refusing_plug (down_for 1)) =
      (Raise AuthenticationFailed, (o', w'))
    /\ events w' =
         [EvDisconnect; EvConnect (Some sample_address) None true;
          EvWrite sample_authorize_frame true; EvDisconnect]
    /\ pin o' = None
    /\ _peripheral o' = None.
Proof.
  apply (@send_reauthorization_refused sample_externals
           (sample_session (Some sample_pin))
           (sample_world refusing_plug (down_for 1))
           (PowerSwitchCommand true) sample_pin sample_address
           sample_power_on_frame sample_authorize_frame);
    try reflexivity.
  split; reflexivity.
Defined.

Lemma send_reconnect_fails_witness :
  exists o' w',
    _send_command (PowerSwitchCommand true) true
      (sample_session (Some sample_pin),
       mkWorld silent_plug [] (down_for 1) 0 (fun _ => false) 0 [] []) =
      (Raise BTLEException, (o', w'))
    /\ events w' =
         [EvDisconnect; EvConnect (Some sample_address) None false;
          EvDisconnect]
    /\ _peripheral o' = None.
Proof.
  apply (@send_reconnect_fails sample_externals
           (sample_session (Some sample_pin))
           (mkWorld silent_plug [] (down_for 1) 0 (fun _ => false) 0 [] [])
           (PowerSwitchCommand true) sample_pin sample_address
           sample_power_on_frame);
    reflexivity.
Defined.
